(** * shaas: the request-to-process execution bridge

    A shallow embedding of [shaas.go]: the basic-auth gate ([init],
    [authorize]), the dispatcher ([handleAny], [handlePost], [handleWs]),
    the process bridge ([execCmd]), the flushing writer
    ([flushWriterWrapper]) and the CGI environment builder ([cgiEnv],
    [upperCaseAndUnderscore]).

    Go strings are byte strings and are modelled by [string] (they are
    taken to be valid UTF-8, see [strings_Map]); runes and machine
    integers are modelled by [Z]; [http.Header] and the file system are
    finite maps.  A handler is modelled by the trace of the effects it
    performs, in program order: what it logs, what it writes to the
    response, the child it runs, a panic, the exit of the server.  The
    closing of the opened file is not traced. *)

From Stdlib Require Import ZArith Bool Ascii String List Lia DecimalString.
From Stdlib Require DecimalPos.
From stdpp Require Import base option list strings gmap fin_maps.

Local Open Scope Z_scope.

(** ** The parts of the Go standard library the program calls *)

Module Go.

(** A rune is an [int32] code point. *)
Definition rune : Type := Z.

Definition rune_of (c : ascii) : rune := Z.of_N (N_of_ascii c).
Definition byte_of (r : rune) : ascii := ascii_of_N (Z.to_N r).

(** [strings.Map mapping s].  Go applies [mapping] to every rune of [s]
    and encodes the results again.  The model applies it to every byte:
    the two agree on every valid UTF-8 string (so on every ASCII
    string, and HTTP header names are ASCII tokens) as soon as
    [mapping] sends ASCII runes to ASCII runes and leaves the other
    runes alone, which is what [upperCaseAndUnderscore] does. *)
Fixpoint strings_Map (mapping : rune -> rune) (s : string) : string :=
  match s with
  | EmptyString => EmptyString
  | String b rest => String (byte_of (mapping (rune_of b))) (strings_Map mapping rest)
  end.

(** [strings.Join elems sep]. *)
Fixpoint strings_Join (elems : list string) (sep : string) : string :=
  match elems with
  | [] => EmptyString
  | [e] => e
  | e :: rest => e +:+ sep +:+ strings_Join rest sep
  end.

(** [strings.HasPrefix s prefix]. *)
Fixpoint strings_HasPrefix (s pre : string) {struct pre} : bool :=
  match pre with
  | EmptyString => true
  | String a pre =>
      match s with
      | EmptyString => false
      | String b s => Ascii.eqb a b && strings_HasPrefix s pre
      end
  end.

(** [strings.LastIndex s substr]: the byte index of the last occurrence
    of [substr] in [s], or -1. *)
Fixpoint strings_LastIndex (s substr : string) : Z :=
  match s with
  | EmptyString => if strings_HasPrefix EmptyString substr then 0 else -1
  | String _ rest =>
      let later := strings_LastIndex rest substr in
      if 0 <=? later then later + 1
      else if strings_HasPrefix s substr then 0 else -1
  end.

(** [strings.SplitN s sep 2]: cut at the first occurrence of the one-byte
    separator; one piece when there is none. *)
Fixpoint strings_SplitN2 (s : string) (sep : ascii) : list string :=
  match s with
  | EmptyString => [EmptyString]
  | String c rest =>
      if Ascii.eqb c sep then [EmptyString; rest]
      else match strings_SplitN2 rest sep with
           | p :: ps => String c p :: ps
           | [] => [String c EmptyString]
           end
  end.

(** The slice expression [s[0:hi]]; it panics ([None]) when [hi] is out
    of range. *)
Definition slice_to (s : string) (hi : Z) : option string :=
  if (0 <=? hi) && (hi <=? Z.of_nat (String.length s))
  then Some (String.substring 0 (Z.to_nat hi) s)
  else None.

(** [fmt.Sprintf "%d" n]. *)
Definition format_d (n : Z) : string := NilZero.string_of_int (Z.to_int n).

(** *** [os.FileMode] *)

Definition FileMode : Type := Z.

Definition ModeDir : FileMode := Z.shiftl 1 31.
Definition ModeSymlink : FileMode := Z.shiftl 1 27.
Definition ModeDevice : FileMode := Z.shiftl 1 26.
Definition ModeNamedPipe : FileMode := Z.shiftl 1 25.
Definition ModeSocket : FileMode := Z.shiftl 1 24.
Definition ModeCharDevice : FileMode := Z.shiftl 1 21.
Definition ModeIrregular : FileMode := Z.shiftl 1 19.

Definition ModeType : FileMode :=
  Z.lor ModeDir (Z.lor ModeSymlink (Z.lor ModeNamedPipe
    (Z.lor ModeSocket (Z.lor ModeDevice (Z.lor ModeCharDevice ModeIrregular))))).

(** Permission bits are written in octal in the source: [octal 1 1 0]
    is Go's [0110]. *)
Definition octal (d2 d1 d0 : Z) : Z := d2 * 64 + d1 * 8 + d0.

Definition ModePerm : FileMode := octal 7 7 7.

(** [m.IsDir()] and [m.IsRegular()]. *)
Definition IsDir (m : FileMode) : bool := negb (Z.land m ModeDir =? 0).
Definition IsRegular (m : FileMode) : bool := Z.land m ModeType =? 0.

(** [path.Join dir "bin" "pseudo-interactive-bash"] for the clean
    absolute path [dir] that [os.Getwd] returns. *)
Definition path_Join_bin (dir : string) : string :=
  if String.eqb dir "/" then "/bin/pseudo-interactive-bash"
  else dir +:+ "/bin/pseudo-interactive-bash".

(** [http.Header.Get]: the first value stored under the key, or the
    empty string.  The program only asks for keys that are already in
    canonical form. *)
Definition Header_Get (h : gmap string (list string)) (key : string) : string :=
  match h !! key with
  | Some (v :: _) => v
  | _ => EmptyString
  end.

(** [url.Values.Get]: the first value of the query parameter, or the
    empty string. *)
Definition Values_Get (q : gmap string (list string)) (key : string) : string :=
  match q !! key with
  | Some (v :: _) => v
  | _ => EmptyString
  end.

(** [os.Getenv] and [os.Environ] *)
Fixpoint Getenv (environ : list (string * string)) (key : string) : string :=
  match environ with
  | [] => EmptyString
  | (k, v) :: rest => if String.eqb k key then v else Getenv rest key
  end.

Definition os_Environ (environ : list (string * string)) : list string :=
  map (fun kv => fst kv +:+ "=" +:+ snd kv) environ.

(** [strconv.Atoi] on 64-bit [int]. *)
Fixpoint digits (s : string) (acc : Z) : option Z :=
  match s with
  | EmptyString => Some acc
  | String c rest =>
      let d := rune_of c - rune_of "0" in
      if (0 <=? d) && (d <=? 9) then digits rest (acc * 10 + d) else None
  end.

Definition strconv_Atoi (s : string) : option Z :=
  let '(neg, body) :=
    match s with
    | String "-" rest => (true, rest)
    | String "+" rest => (false, rest)
    | _ => (false, s)
    end in
  match body with
  | EmptyString => None
  | _ =>
      match digits body 0 with
      | Some v =>
          let n := if neg : bool then - v else v in
          if (- 2 ^ 63 <=? n) && (n <? 2 ^ 63) then Some n else None
      | None => None
      end
  end.

(** [strings.Contains] *)
Fixpoint strings_Contains (s substr : string) : bool :=
  strings_HasPrefix s substr ||
  match s with
  | EmptyString => false
  | String _ rest => strings_Contains rest substr
  end.

End Go.

Import Go.

(** ** Data *)

(** The fields of [*http.Request] the program reads.  [URL_RequestURI],
    [URL_Query] and [BasicAuth] hold the results of the library methods
    [req.URL.RequestURI()], [req.URL.Query()] and [req.BasicAuth()];
    [WsHandshake] tells whether the handshake of [websocket.Handler]
    accepts the request. *)
Record Request := {
  Method : string;
  Host : string;
  RemoteAddr : string;
  URL_Path : string;
  URL_RawQuery : string;
  URL_RequestURI : string;
  URL_Query : gmap string (list string);
  Header : gmap string (list string);
  ContentLength : Z;
  TLS : bool;
  BasicAuth : option (string * string);
  WsHandshake : bool
}.

(** An [http.ResponseWriter]; [Flusher] tells whether its dynamic type
    also has a [Flush] method, that is, whether it is a [flushWriter]. *)
Record ResponseWriter := { Flusher : bool }.

(** An [error] value is represented by its text; a call that returns
    [(value, error)] returns a [result]. *)
Definition error : Type := string.

Inductive result (A : Type) :=
| Ok (a : A)
| Err (e : error).
Arguments Ok {A} a.
Arguments Err {A} e.

(** [os.FileInfo] and an opened [*os.File]: the name it was opened
    under, and what [Stat] answers. *)
Record FileInfo := { Size : Z; Mode : FileMode }.
Record File := { Name : string; Stat : result FileInfo }.

Inductive OpenResult :=
| Opened (f : File)
| OpenError (notExist : bool) (err : error).

(** The process-wide state read by the handlers. *)
Record Config := {
  requireBasicAuth : bool;
  authUser : string;
  authPassword : string
}.

(** The standard streams handed to the child. *)
Inductive Reader := RequestBody | WsIn.
Inductive Writer := FlushWriterWrapper | WsOut.

(** [*exec.Cmd] *)
Record Cmd := {
  Path : string;
  Dir : string;
  Env : list string;
  Stdin : Reader;
  Stdout : Writer;
  Stderr : Writer
}.

(** The machine the server runs on.  [ModTimeYear dir name] is the year
    of the modification time that [ReadDir dir] reports for its entry
    [name]; it is all the program's behaviour depends on in a time
    stamp. *)
Record Machine := {
  Environ : list (string * string);
  Getwd : result string;
  Open : string -> OpenResult;
  ReadDir : string -> result (list (string * FileInfo));
  ModTimeYear : string -> string -> Z;
  Run : Cmd -> option error
}.

Record stdError := { Message : string; Cause : option error }.

Inductive LogLine :=
| LogRequest (method path : string)
| LogError (method path message : string) (cause : option error)
| LogRunError (method path : string) (err : error)
| LogExit (code : Z)
| LogDir (dir : string)
| LogFatal (err : error).

Inductive Body :=
| Text (s : string)
| JSON (e : stdError).

(** What a handler does, observed from outside. *)
Inductive Event :=
| EvLog (l : LogLine)
| EvSetHeader (key value : string)
| EvWriteHeader (status : Z)
| EvWrite (b : Body)
| EvRenderDirHTML (pathName : string) (entries : list (string * FileInfo))
| EvRenderDirJSON (entries : list (string * FileInfo))
| EvCopyFile (name : string)
| EvWsRejected
| EvRun (c : Cmd)
| EvExit (code : Z)
| EvPanic.

Definition Handler : Type := ResponseWriter -> Request -> list Event.

Definition StatusBadRequest : Z := 400.
Definition StatusUnauthorized : Z := 401.
Definition StatusNotFound : Z := 404.
Definition StatusMethodNotAllowed : Z := 405.
Definition StatusInternalServerError : Z := 500.

(** [http.Error] *)
Definition http_Error (b : Body) (code : Z) : list Event :=
  [ EvSetHeader "Content-Type" "text/plain; charset=utf-8";
    EvSetHeader "X-Content-Type-Options" "nosniff";
    EvWriteHeader code;
    EvWrite b ].

(** ** The program *)

(** [upperCaseAndUnderscore] (shaas.go, l. 332) *)
Definition upperCaseAndUnderscore (r : rune) : rune :=
  if (rune_of "a" <=? r) && (r <=? rune_of "z") then r - (rune_of "a" - rune_of "A")
  else if r =? rune_of "-" then rune_of "_"
  else if r =? rune_of "=" then rune_of "_"
  else r.

(** [handleError] (l. 251): log, then answer with the JSON encoding of
    the [stdError]. *)
Definition handleError (req : Request) (err : option error) (httpStatus : Z)
    (message : string) : list Event :=
  let stdError := {| Message := message; Cause := err |} in
  [ EvLog (LogError (Method req) (URL_Path req) (Message stdError) (Cause stdError));
    EvSetHeader "Content-Type" "application/json" ]
  ++ http_Error (JSON stdError) httpStatus.

(** [authorize] (l. 42) *)
Definition authorize (cfg : Config) (handler : Handler) : Handler :=
  fun res req =>
    if requireBasicAuth cfg then
      match BasicAuth req with
      | None =>
          handleError req (Some "Authorization Required") StatusUnauthorized "Not Authorized"
      | Some (user, pass) =>
          if negb (String.eqb user (authUser cfg)) || negb (String.eqb pass (authPassword cfg))
          then handleError req (Some "Not Authorized") StatusUnauthorized "Not Authorized"
          else handler res req
      end
    else handler res req.

(** [handleExit] (l. 59) *)
Definition handleExit : Handler :=
  fun res req =>
    let c := Values_Get (URL_Query req) "code" in
    let code :=
      if negb (String.eqb c "") then
        match strconv_Atoi c with
        | Some code => code
        | None => 1
        end
      else 0 in
    [ EvLog (LogExit code); EvExit code ].

(** The prompt of the interactive shell (l. 187). *)
Definition PS1 : string :=
  "PS1=\[\033[01;34m\]\w\[\033[00m\] \[\033[01;32m\]$ \[\033[00m\]".

Section Program.

Variable M : Machine.

(** [init] (l. 24) *)
Definition init : Config :=
  let basicAuth := Getenv (Environ M) "BASIC_AUTH" in
  if negb (String.eqb basicAuth "") then
    let bits := strings_SplitN2 basicAuth ":" in
    {| requireBasicAuth := true;
       authUser := default EmptyString (bits !! 0%nat);
       authPassword :=
         if (length bits =? 2)%nat then default EmptyString (bits !! 1%nat)
         else EmptyString |}
  else
    {| requireBasicAuth := false; authUser := EmptyString; authPassword := EmptyString |}.

(** [httpPort] (l. 283) *)
Definition httpPort : string :=
  let port := Getenv (Environ M) "PORT" in
  if negb (String.eqb port "") then port else "5000".

(** One turn of the loop over [req.Header] in [cgiEnv] (l. 313-319). *)
Definition headerEnv (k : string) (v : list string) : string :=
  let k := strings_Map upperCaseAndUnderscore k in
  let joinStr := if String.eqb k "COOKIE" then "; " else ", " in
  "HTTP_" +:+ k +:+ "=" +:+ strings_Join v joinStr.

(** [cgiEnv] (l. 291).  Go visits the keys of a map in an unspecified
    order; here they come in the order of [map_to_list]. *)
Definition cgiEnv (req : Request) : list string :=
  let env :=
    [ "SERVER_SOFTWARE=go";
      "SERVER_NAME=" +:+ Host req;
      "SERVER_PROTOCOL=HTTP/1.1";
      "HTTP_HOST=" +:+ Host req;
      "GATEWAY_INTERFACE=CGI/1.1";
      "REQUEST_METHOD=" +:+ Method req;
      "QUERY_STRING=" +:+ URL_RawQuery req;
      "REQUEST_URI=" +:+ URL_RequestURI req;
      "PATH_INFO=" +:+ URL_Path req;
      "SCRIPT_NAME=" +:+ URL_Path req;
      "SCRIPT_FILENAME=" +:+ URL_Path req;
      "REMOTE_ADDR=" +:+ RemoteAddr req;
      "REMOTE_HOST=" +:+ RemoteAddr req;
      "SERVER_PORT=" +:+ httpPort ] in
  let env := if TLS req then env ++ ["HTTPS=on"] else env in
  let env :=
    foldl (fun env kv => env ++ [headerEnv (fst kv) (snd kv)]) env
          (map_to_list (Header req)) in
  let env :=
    if 0 <? ContentLength req
    then env ++ ["CONTENT_LENGTH=" +:+ format_d (ContentLength req)]
    else env in
  let ctype := Header_Get (Header req) "Content-Type" in
  let env :=
    if negb (String.eqb ctype "") then env ++ ["CONTENT_TYPE=" +:+ ctype] else env in
  env.

(** The end of [execCmd] (l. 185-195): environment, streams, [cmd.Run]. *)
Definition runCmd (req : Request) (path dir : string) (in_ : Reader) (out : Writer)
    (interactive : bool) : list Event :=
  let env := os_Environ (Environ M) ++ cgiEnv req in
  let env := if interactive then env ++ [PS1] else env in
  let cmd := {| Path := path; Dir := dir; Env := env;
                Stdin := in_; Stdout := out; Stderr := out |} in
  EvRun cmd ::
  match Run M cmd with
  | Some err => [ EvLog (LogRunError (Method req) (URL_Path req) err) ]
  | None => []
  end.

(** [execCmd] (l. 156) *)
Definition execCmd (req : Request) (path : File) (pathInfo : FileInfo)
    (in_ : Reader) (out : Writer) (interactive : bool) : list Event :=
  if IsDir (Mode pathInfo) then
    if interactive then
      match Getwd M with
      | Err err => [ EvLog (LogFatal err); EvExit 1 ]
      | Ok dir =>
          EvLog (LogDir dir) ::
          runCmd req (path_Join_bin dir) (Name path) in_ out interactive
      end
    else runCmd req "bash" (Name path) in_ out interactive
  else if IsRegular (Mode pathInfo)
          && negb (Z.land (Mode pathInfo) (octal 1 1 0) =? 0) then
    match slice_to (Name path) (strings_LastIndex (Name path) "/") with
    | Some dir => runCmd req (Name path) dir in_ out interactive
    | None => [ EvPanic ]
    end
  else
    handleError req None StatusBadRequest
      "Invalid file type for POST. Only directories and regular executable file are supported".

(** [handlePost] (l. 143): the type assertion [res.(flushWriter)]
    panics when [res] has no [Flush] method. *)
Definition handlePost (res : ResponseWriter) (req : Request) (path : File)
    (pathInfo : FileInfo) : list Event :=
  if Flusher res
  then execCmd req path pathInfo RequestBody FlushWriterWrapper false
  else [ EvPanic ].

(** [handleWs] (l. 148) *)
Definition handleWs (res : ResponseWriter) (req : Request) (path : File)
    (pathInfo : FileInfo) : list Event :=
  if WsHandshake req
  then execCmd req path pathInfo WsIn WsOut true
  else [ EvWsRejected ].

(** [renderDirJSON] (l. 216) panics when [json.MarshalIndent] fails,
    which it does on a time stamp whose year is outside 0..9999. *)
Definition marshals (dir : string) (fileInfos : list (string * FileInfo)) : bool :=
  forallb (fun fi => (0 <=? ModTimeYear M dir (fst fi))
                     && (ModTimeYear M dir (fst fi) <? 10000)) fileInfos.

(** [handleGet] (l. 109) *)
Definition handleGet (res : ResponseWriter) (req : Request) (path : File)
    (pathInfo : FileInfo) : list Event :=
  if IsDir (Mode pathInfo) then
    match ReadDir M (Name path) with
    | Err err =>
        handleError req (Some err) StatusInternalServerError "Error reading directory"
    | Ok fileInfos =>
        if strings_Contains (Header_Get (Header req) "Accept") "html"
        then [ EvSetHeader "Content-Type" "text/html";
               EvRenderDirHTML (Name path) fileInfos ]
        else if marshals (Name path) fileInfos
        then [ EvSetHeader "Content-Type" "application/json";
               EvRenderDirJSON fileInfos ]
        else [ EvSetHeader "Content-Type" "application/json"; EvPanic ]
    end
  else if IsRegular (Mode pathInfo) then
    match Stat path with
    | Err err =>
        handleError req (Some err) StatusInternalServerError "Error reading file stat"
    | Ok stat =>
        (if 0 <? Size stat
         then [ EvSetHeader "Content-Length" (format_d (Size stat)) ]
         else [])
        ++ [ EvCopyFile (Name path) ]
    end
  else
    handleError req None StatusBadRequest
      "Invalid file type for GET. Only directories and regular files are supported.".

(** [handleAny] (l. 73) *)
Definition handleAny : Handler :=
  fun res req =>
    EvLog (LogRequest (Method req) (URL_Path req)) ::
    match Open M (URL_Path req) with
    | OpenError notExist err =>
        if notExist
        then handleError req (Some err) StatusNotFound "File not found"
        else handleError req (Some err) StatusBadRequest "Error reading path"
    | Opened path =>
        match Stat path with
        | Err err =>
            handleError req (Some err) StatusInternalServerError "Error reading path info"
        | Ok pathInfo =>
            if strings_HasPrefix (Header_Get (Header req) "Origin") "ws://"
            then handleWs res req path pathInfo
            else if String.eqb (Method req) "GET" then handleGet res req path pathInfo
            else if String.eqb (Method req) "POST" then handlePost res req path pathInfo
            else http_Error (Text "Only GET and POST supported") StatusMethodNotAllowed
        end
    end.

(** The handlers [main] registers (l. 37-38), by pattern. *)
Definition routes : list (string * Handler) :=
  [ ("/>/exit", authorize init handleExit);
    ("/", authorize init handleAny) ].

End Program.

(** ** The flushing writer (l. 268-281) *)

(** The interface [flushWriter]: a state of type [T] with the two
    methods.  [Write] answers the byte count and the error. *)
Class flushWriter (T : Type) := {
  Write : T -> string -> T * (Z * option error);
  Flush : T -> T
}.

(** [flushWriterWrapper.Write] (l. 277) *)
Definition flushWriterWrapper_Write {T : Type} `{flushWriter T} (fw : T) (p : string)
    : T * (Z * option error) :=
  let '(fw, (n, err)) := Write fw p in
  let fw := Flush fw in
  (fw, (n, err)).

(** The calls a transport receives, in order. *)
Inductive Call :=
| CallWrite (p : string)
| CallFlush.

(** Any [flushWriter] with a record of the calls made to it. *)
#[export] Instance recorded (T : Type) `{flushWriter T} : flushWriter (T * list Call) := {
  Write := fun st p =>
    let '(t, r) := Write (fst st) p in ((t, snd st ++ [CallWrite p]), r);
  Flush := fun st => (Flush (fst st), snd st ++ [CallFlush])
}.

(** The loop of [io.Copy] by which [cmd.Run] forwards the child's
    output, read chunk by chunk from its pipe, to [cmd.Stdout]: one
    [Write] per chunk, until a write fails or falls short. *)
Fixpoint io_Copy {T : Type} (write : T -> string -> T * (Z * option error))
    (dst : T) (chunks : list string) : T * option error :=
  match chunks with
  | [] => (dst, None)
  | p :: rest =>
      let '(dst, (nw, ew)) := write dst p in
      match ew with
      | Some e => (dst, Some e)
      | None =>
          if nw =? Z.of_nat (String.length p) then io_Copy write dst rest
          else (dst, Some "short write")
      end
  end.

(** Is every [Write] in the record directly followed by a [Flush]? *)
Fixpoint flushedAfterEachWrite (calls : list Call) : bool :=
  match calls with
  | [] => true
  | CallFlush :: rest => flushedAfterEachWrite rest
  | CallWrite _ :: CallFlush :: rest => flushedAfterEachWrite rest
  | CallWrite _ :: _ => false
  end.

(** ** A file system behind [os.Open]

    [os.Open] opens with [O_RDONLY] and so follows symbolic links; the
    [Stat] of the opened file is an [fstat] of what was reached.  Paths
    and link targets are absolute; Linux gives up with [ELOOP] after 40
    links and refuses to open a socket ([ENXIO]). *)

Inductive Node :=
| Directory (perm : Z)
| RegularFile (perm size : Z)
| Symlink (target : string)
| BlockDevice (perm : Z)
| CharDevice (perm : Z)
| NamedPipe (perm : Z)
| Socket (perm : Z).

(** The mode [os.Lstat] reports for the entry itself. *)
Definition nodeMode (n : Node) : FileMode :=
  match n with
  | Directory perm => Z.lor ModeDir perm
  | RegularFile perm _ => perm
  | Symlink _ => Z.lor ModeSymlink ModePerm
  | BlockDevice perm => Z.lor ModeDevice perm
  | CharDevice perm => Z.lor ModeDevice (Z.lor ModeCharDevice perm)
  | NamedPipe perm => Z.lor ModeNamedPipe perm
  | Socket perm => Z.lor ModeSocket perm
  end.

Definition nodeSize (n : Node) : Z :=
  match n with
  | RegularFile _ size => size
  | _ => 0
  end.

Inductive Lookup :=
| Found (n : Node)
| ENOENT
| ELOOP.

Fixpoint follow (fs : gmap string Node) (links : nat) (name : string) : Lookup :=
  match fs !! name with
  | None => ENOENT
  | Some (Symlink target) =>
      match links with
      | O => ELOOP
      | S links => follow fs links target
      end
  | Some n => Found n
  end.

Definition MAXSYMLINKS : nat := 40.

Definition os_Open (fs : gmap string Node) (name : string) : OpenResult :=
  match follow fs MAXSYMLINKS name with
  | ENOENT => OpenError true ("open " +:+ name +:+ ": no such file or directory")
  | ELOOP => OpenError false ("open " +:+ name +:+ ": too many levels of symbolic links")
  | Found (Socket _) => OpenError false ("open " +:+ name +:+ ": no such device or address")
  | Found n =>
      Opened {| Name := name; Stat := Ok {| Size := nodeSize n; Mode := nodeMode n |} |}
  end.

(** A machine with the file system [fs], the environment [environ] and
    the working directory [cwd], on which every child runs to a normal
    exit. *)
Definition machine (fs : gmap string Node) (environ : list (string * string))
    (cwd : string) : Machine :=
  {| Environ := environ;
     Getwd := Ok cwd;
     Open := os_Open fs;
     ReadDir := fun _ => Ok [];
     ModTimeYear := fun _ _ => 2015;
     Run := fun _ => None |}.

(** The working directory of the child: [exec.Cmd] starts it in [Dir],
    and in the server's own directory when [Dir] is empty. *)
Definition workingDirectory (cwd : string) (cmd : Cmd) : string :=
  if String.eqb (Dir cmd) "" then cwd else Dir cmd.

(** The key of a [KEY=VALUE] string: what stands before the first [=]. *)
Fixpoint envKey (kv : string) : string :=
  match kv with
  | EmptyString => EmptyString
  | String c rest => if Ascii.eqb c "=" then EmptyString else String c (envKey rest)
  end.

(** What follows the first [=]. *)
Fixpoint envValue (kv : string) : string :=
  match kv with
  | EmptyString => EmptyString
  | String c rest => if Ascii.eqb c "=" then rest else envValue rest
  end.

(** Does the byte occur in the string? *)
Fixpoint occurs (c : ascii) (s : string) : bool :=
  match s with
  | EmptyString => false
  | String d rest => Ascii.eqb d c || occurs c rest
  end.

(** The three ways [execCmd] treats an entry, read off its conditions
    (l. 159, 175, 178). *)
Inductive Kind :=
| DirectoryEntry
| ExecutableFile
| InvalidEntry.

Definition classify (m : FileMode) : Kind :=
  if IsDir m then DirectoryEntry
  else if IsRegular m && negb (Z.land m (octal 1 1 0) =? 0) then ExecutableFile
  else InvalidEntry.

Definition ownerExecute : Z := 6.
Definition groupExecute : Z := 3.
Definition worldExecute : Z := 0.

Definition invalidPost : string :=
  "Invalid file type for POST. Only directories and regular executable file are supported".

(** Whether a trace starts a child, and which. *)
Definition spawned (trace : list Event) : list Cmd :=
  omap (fun e => match e with EvRun c => Some c | _ => None end) trace.

(** ** Sample machines and requests *)

Definition rwxr_xr_x : FileMode := octal 7 5 5.
Definition rw_r__r_x : FileMode := octal 6 4 1.
Definition rw_r__r__ : FileMode := octal 6 4 4.

(** A small tree: a directory, an executable right under the root, one
    deeper, a plain file, links to the directory and to the executable,
    and the special files. *)
Definition sampleFs : gmap string Node :=
  list_to_map
    [ ("/", Directory rwxr_xr_x);
      ("/run.sh", RegularFile rwxr_xr_x 120);
      ("/srv", Directory rwxr_xr_x);
      ("/srv/tool", RegularFile rwxr_xr_x 2048);
      ("/srv/notes.txt", RegularFile rw_r__r__ 5);
      ("/srv/world.sh", RegularFile rw_r__r_x 64);
      ("/current", Symlink "/srv");
      ("/tool", Symlink "/srv/tool");
      ("/dev/null", CharDevice (octal 6 6 6));
      ("/run/queue", NamedPipe rw_r__r__);
      ("/run/ctl.sock", Socket rwxr_xr_x) ].

Definition sampleMachine : Machine :=
  machine sampleFs [("PATH", "/usr/bin:/bin"); ("BASIC_AUTH", "admin:s3cret")] "/app".

Definition request (method path : string) (header : list (string * list string)) : Request :=
  {| Method := method;
     Host := "shaas.example.com";
     RemoteAddr := "10.0.0.7:51234";
     URL_Path := path;
     URL_RawQuery := EmptyString;
     URL_RequestURI := path;
     URL_Query := ∅;
     Header := list_to_map header;
     ContentLength := 0;
     TLS := false;
     BasicAuth := None;
     WsHandshake := true |}.

Definition post (path : string) : Request := request "POST" path [].

Definition flushing : ResponseWriter := {| Flusher := true |}.

(** The environment has an entry with this key. *)
Definition hasKey (key : string) (env : list string) : Prop :=
  exists e, In e env /\ envKey e = key.

(** ** ASCII classes, for stating what [upperCaseAndUnderscore] does *)

Definition isLower (c : ascii) : bool :=
  (rune_of "a" <=? rune_of c) && (rune_of c <=? rune_of "z").

Definition isUpper (c : ascii) : bool :=
  (rune_of "A" <=? rune_of c) && (rune_of c <=? rune_of "Z").

Definition isDigit (c : ascii) : bool :=
  (rune_of "0" <=? rune_of c) && (rune_of c <=? rune_of "9").

Definition toUpper (c : ascii) : ascii :=
  if isLower c then byte_of (rune_of c - 32) else c.

Definition toLower (c : ascii) : ascii :=
  if isUpper c then byte_of (rune_of c + 32) else c.

Fixpoint mapBytes (f : ascii -> ascii) (s : string) : string :=
  match s with
  | EmptyString => EmptyString
  | String c rest => String (f c) (mapBytes f rest)
  end.

Fixpoint allBytes (p : ascii -> bool) (s : string) : bool :=
  match s with
  | EmptyString => true
  | String c rest => p c && allBytes p rest
  end.

(** Equality of two names up to the case of their ASCII letters. *)
Definition equalFold (s t : string) : bool :=
  String.eqb (mapBytes toLower s) (mapBytes toLower t).

(** What one byte of a header name becomes in the key. *)
Definition foldedByte (c : ascii) : ascii :=
  if isLower c then toUpper c
  else if Ascii.eqb c "-" || Ascii.eqb c "=" then "_"%char
  else c.

(** The 256 bytes. *)
Definition bytes : list ascii := map ascii_of_nat (seq 0 256).

Definition cookieRequest : Request :=
  request "POST" "/srv"
    [ ("Cookie", ["sid=abc"; "theme=dark"]);
      ("Accept", ["text/html"; "application/json"]);
      ("X-Api.version", ["2"]);
      ("Content-Type", ["text/plain"]) ].

(** What the transport records when the chunks are written and each is
    flushed. *)
Definition writeAndFlush (chunks : list string) : list Call :=
  flat_map (fun p => [CallWrite p; CallFlush]) chunks.

(** A transport that takes every write whole. *)
#[export] Instance sink : flushWriter unit := {
  Write := fun _ p => (tt, (Z.of_nat (String.length p), None));
  Flush := fun _ => tt
}.

Definition wrongPassword : Request :=
  {| Method := "GET";
     Host := "shaas.example.com";
     RemoteAddr := "10.0.0.7:51234";
     URL_Path := "/>/exit";
     URL_RawQuery := "code=7";
     URL_RequestURI := "/>/exit?code=7";
     URL_Query := {[ "code" := ["7"] ]};
     Header := ∅;
     ContentLength := 0;
     TLS := false;
     BasicAuth := Some ("admin", "guess");
     WsHandshake := false |}.

(** The trace of a request turned away by [authorize]. *)
Definition notAuthorized (req : Request) (cause : error) : list Event :=
  [ EvLog (LogError (Method req) (URL_Path req) "Not Authorized" (Some cause));
    EvSetHeader "Content-Type" "application/json";
    EvSetHeader "Content-Type" "text/plain; charset=utf-8";
    EvSetHeader "X-Content-Type-Options" "nosniff";
    EvWriteHeader 401;
    EvWrite (JSON {| Message := "Not Authorized"; Cause := Some cause |}) ].

Definition uploadRequest : Request :=
  {| Method := "POST";
     Host := "shaas.example.com";
     RemoteAddr := "10.0.0.7:51234";
     URL_Path := "/srv/tool";
     URL_RawQuery := "a=1&b=2";
     URL_RequestURI := "/srv/tool?a=1&b=2";
     URL_Query := {[ "a" := ["1"]; "b" := ["2"] ]};
     Header := {[ "Content-Type" := ["application/octet-stream"] ]};
     ContentLength := 1024;
     TLS := true;
     BasicAuth := Some ("admin", "s3cret");
     WsHandshake := false |}.

(** ** Reading a trace *)

(** The [Content-Type] in force when the status line is written: each
    [Set] replaces the value, [WriteHeader] sends the headers. *)
Fixpoint sentContentType (current : string) (trace : list Event) : option string :=
  match trace with
  | [] => None
  | EvSetHeader key value :: rest =>
      sentContentType (if String.eqb key "Content-Type" then value else current) rest
  | EvWriteHeader _ :: _ => Some current
  | _ :: rest => sentContentType current rest
  end.

(** No status is written. *)
Definition quiet (trace : list Event) : Prop :=
  forall status, ~ In (EvWriteHeader status) trace.

(** ** Listing a directory (l. 198-244) *)

(** [strings.HasSuffix] *)
Fixpoint strings_HasSuffix (s suffix : string) : bool :=
  String.eqb s suffix ||
  match s with
  | EmptyString => false
  | String _ rest => strings_HasSuffix rest suffix
  end.

(** [html.EscapeString]: the ampersand, the single quote, the two angle
    brackets and the double quote (byte 34) are replaced. *)
Fixpoint html_EscapeString (s : string) : string :=
  match s with
  | EmptyString => EmptyString
  | String c rest =>
      (if Ascii.eqb c "&" then "&amp;"
       else if Ascii.eqb c "'" then "&#39;"
       else if Ascii.eqb c "<" then "&lt;"
       else if Ascii.eqb c ">" then "&gt;"
       else if Ascii.eqb c "034" then "&#34;"
       else String c EmptyString)
      +:+ html_EscapeString rest
  end.

(** The loop of [renderDirHTML] (l. 201-212); [pathName] is the
    variable the loop updates. *)
Fixpoint renderItems (pathName : string) (fileInfos : list (string * FileInfo)) : string :=
  match fileInfos with
  | [] => EmptyString
  | fi :: rest =>
      let pathName :=
        if negb (strings_HasSuffix pathName "/") then pathName +:+ "/" else pathName in
      let label := fst fi in
      let label := if IsDir (Mode (snd fi)) then label +:+ "/" else label in
      "<li><a href='" +:+ pathName +:+ fst fi +:+ "'>" +:+ html_EscapeString label
      +:+ "</a></li>" +:+ renderItems pathName rest
  end.

(** [renderDirHTML] (l. 198): the text written to the response when the
    trace says [EvRenderDirHTML]. *)
Definition renderDirHTML (pathName : string) (fileInfos : list (string * FileInfo)) : string :=
  "<pre><ul>" +:+ renderItems pathName fileInfos +:+ "</ul></pre>".

(** [os.FileMode.String]: a letter for each mode bit that is set, from
    bit 31 down, [-] when there is none, then the nine permission bits. *)
Definition modeLetters : list (Z * ascii) :=
  [ (31, "d"); (30, "a"); (29, "l"); (28, "T"); (27, "L"); (26, "D"); (25, "p");
    (24, "S"); (23, "u"); (22, "g"); (21, "c"); (20, "t"); (19, "?") ]%char.

Definition permLetters : list (Z * ascii) :=
  [ (8, "r"); (7, "w"); (6, "x"); (5, "r"); (4, "w"); (3, "x"); (2, "r"); (1, "w");
    (0, "x") ]%char.

Fixpoint setLetters (m : FileMode) (letters : list (Z * ascii)) : string :=
  match letters with
  | [] => EmptyString
  | (bit, c) :: rest =>
      if negb (Z.land m (Z.shiftl 1 bit) =? 0) then String c (setLetters m rest)
      else setLetters m rest
  end.

Fixpoint rwxLetters (m : FileMode) (letters : list (Z * ascii)) : string :=
  match letters with
  | [] => EmptyString
  | (bit, c) :: rest =>
      String (if negb (Z.land m (Z.shiftl 1 bit) =? 0) then c else "-"%char)
             (rwxLetters m rest)
  end.

Definition FileMode_String (m : FileMode) : string :=
  let buf := setLetters m modeLetters in
  let buf := if String.eqb buf "" then "-" else buf in
  buf +:+ rwxLetters m permLetters.

(** [FileInfoDetails] (l. 230) without its time stamp, which [FileInfo]
    does not carry. *)
Record FileInfoDetails := {
  details_Size : Z;
  details_Type : string;
  details_Perm : Z
}.

(** [toFileInfoDetails] (l. 237); indexing the mode string with [0]
    would panic ([None]) on an empty string. *)
Definition toFileInfoDetails (fi : FileInfo) : option FileInfoDetails :=
  match String.get 0 (FileMode_String (Mode fi)) with
  | Some c =>
      Some {| details_Size := Size fi;
              details_Type := String c EmptyString;
              details_Perm := Z.land (Mode fi) ModePerm |}
  | None => None
  end.

(** The variables [cgiEnv] sets from the request line and the
    connection, with their values (l. 292-307), [HTTP_HOST] apart. *)
Definition fixedVariables (M : Machine) (req : Request) : list (string * string) :=
  [ ("SERVER_SOFTWARE", "go");
    ("SERVER_NAME", Host req);
    ("SERVER_PROTOCOL", "HTTP/1.1");
    ("GATEWAY_INTERFACE", "CGI/1.1");
    ("REQUEST_METHOD", Method req);
    ("QUERY_STRING", URL_RawQuery req);
    ("REQUEST_URI", URL_RequestURI req);
    ("PATH_INFO", URL_Path req);
    ("SCRIPT_NAME", URL_Path req);
    ("SCRIPT_FILENAME", URL_Path req);
    ("REMOTE_ADDR", RemoteAddr req);
    ("REMOTE_HOST", RemoteAddr req);
    ("SERVER_PORT", httpPort M) ].

(** A machine on which [os.Getwd] fails, and a WebSocket request. *)
Definition lostMachine : Machine :=
  {| Environ := [];
     Getwd := Err "getwd: no such file or directory";
     Open := os_Open sampleFs;
     ReadDir := fun _ => Ok [];
     ModTimeYear := fun _ _ => 2015;
     Run := fun _ => None |}.

Definition wsRequest : Request := request "GET" "/srv" [ ("Origin", ["ws://console.example.com"]) ].


(** * Properties *)

(** ** The library functions on examples *)

Example strings_LastIndex_examples :
  strings_LastIndex "/srv/tool" "/" = 4
  /\ strings_LastIndex "/run.sh" "/" = 0
  /\ strings_LastIndex "tool" "/" = -1
  /\ strings_LastIndex "a::b::c" "::" = 4.
Proof. repeat split. Qed.

Example slice_to_examples :
  slice_to "/srv/tool" 4 = Some "/srv"
  /\ slice_to "/run.sh" 0 = Some EmptyString
  /\ slice_to "tool" (-1) = None.
Proof. repeat split. Qed.

Example strings_SplitN2_examples :
  strings_SplitN2 "admin:s3cret" ":" = ["admin"; "s3cret"]
  /\ strings_SplitN2 "admin:s3:cret" ":" = ["admin"; "s3:cret"]
  /\ strings_SplitN2 "admin" ":" = ["admin"].
Proof. repeat split. Qed.

Example strconv_Atoi_examples :
  strconv_Atoi "7" = Some 7
  /\ strconv_Atoi "-12" = Some (-12)
  /\ strconv_Atoi "seven" = None
  /\ strconv_Atoi "9223372036854775808" = None.
Proof. repeat split. Qed.

Example upperCaseAndUnderscore_examples :
  strings_Map upperCaseAndUnderscore "Content-Type" = "CONTENT_TYPE"
  /\ strings_Map upperCaseAndUnderscore "CONTENT-TYPE" = "CONTENT_TYPE"
  /\ strings_Map upperCaseAndUnderscore "content-type" = "CONTENT_TYPE"
  /\ strings_Map upperCaseAndUnderscore "X=Y" = "X_Y".
Proof. repeat split. Qed.

Example handleExit_code_7 :
  handleExit flushing wrongPassword = [ EvLog (LogExit 7); EvExit 7 ].
Proof. vm_compute. reflexivity. Qed.

(** ** Bits of a mode *)

Section ModeBits.

Lemma land_bit_zero (m k : Z) :
  0 <= k -> (Z.land m (Z.shiftl 1 k) = 0 <-> Z.testbit m k = false).
Proof.
  intros Hk. rewrite Z.shiftl_1_l. split.
  - intros H0.
    assert (Hb : Z.testbit (Z.land m (2 ^ k)) k = false) by (rewrite H0; apply Z.bits_0).
    rewrite Z.land_spec, Z.pow2_bits_true, andb_true_r in Hb; assumption.
  - intros Hb. apply Z.bits_inj'. intros n Hn.
    rewrite Z.land_spec, Z.bits_0, Z.pow2_bits_eqb by assumption.
    destruct (Z.eqb_spec k n) as [-> | _].
    + rewrite Hb. reflexivity.
    + apply andb_false_r.
Qed.

Lemma land_two_bits (m j k : Z) :
  0 <= j -> 0 <= k ->
  (Z.land m (Z.lor (Z.shiftl 1 j) (Z.shiftl 1 k)) = 0
   <-> Z.testbit m j = false /\ Z.testbit m k = false).
Proof.
  intros Hj Hk.
  rewrite Z.land_lor_distr_r, Z.lor_eq_0_iff, !land_bit_zero by assumption.
  reflexivity.
Qed.

Lemma exec_mask_bits (m : Z) :
  Z.land m (octal 1 1 0) <> 0
  <-> Z.testbit m ownerExecute = true \/ Z.testbit m groupExecute = true.
Proof.
  change (octal 1 1 0) with (Z.lor (Z.shiftl 1 ownerExecute) (Z.shiftl 1 groupExecute)).
  rewrite land_two_bits by (unfold ownerExecute, groupExecute; lia).
  destruct (Z.testbit m ownerExecute), (Z.testbit m groupExecute); intuition congruence.
Qed.

Lemma IsDir_not_regular (m : FileMode) : IsDir m = true -> IsRegular m = false.
Proof.
  unfold IsDir, IsRegular. intros Hd.
  apply negb_true_iff, Z.eqb_neq in Hd. apply Z.eqb_neq. intros Ht. apply Hd.
  replace ModeDir with (Z.land ModeType ModeDir) by reflexivity.
  rewrite Z.land_assoc, Ht. apply Z.land_0_l.
Qed.

Lemma IsRegular_not_dir (m : FileMode) : IsRegular m = true -> IsDir m = false.
Proof.
  intros Hr. destruct (IsDir m) eqn:Hd; [| reflexivity].
  apply IsDir_not_regular in Hd. congruence.
Qed.

(** A mode with one of the type bits set is not regular. *)
Lemma type_bit_not_regular (m bit : FileMode) :
  Z.land ModeType bit = bit -> Z.land m bit <> 0 -> IsRegular m = false.
Proof.
  intros Hbit Hm. unfold IsRegular. apply Z.eqb_neq. intros Ht. apply Hm.
  rewrite <- Hbit, Z.land_assoc, Ht. apply Z.land_0_l.
Qed.

End ModeBits.

(** ** The process bridge *)

Lemma execCmd_kind (M : Machine) (req : Request) (path : File) (pathInfo : FileInfo)
    (in_ : Reader) (out : Writer) (interactive : bool) :
  execCmd M req path pathInfo in_ out interactive =
  match classify (Mode pathInfo) with
  | DirectoryEntry =>
      if interactive then
        match Getwd M with
        | Err err => [ EvLog (LogFatal err); EvExit 1 ]
        | Ok dir =>
            EvLog (LogDir dir) ::
            runCmd M req (path_Join_bin dir) (Name path) in_ out interactive
        end
      else runCmd M req "bash" (Name path) in_ out interactive
  | ExecutableFile =>
      match slice_to (Name path) (strings_LastIndex (Name path) "/") with
      | Some dir => runCmd M req (Name path) dir in_ out interactive
      | None => [ EvPanic ]
      end
  | InvalidEntry => handleError req None StatusBadRequest invalidPost
  end.
Proof.
  unfold execCmd, classify.
  destruct (IsDir (Mode pathInfo)); [reflexivity |].
  destruct (IsRegular (Mode pathInfo) && negb (Z.land (Mode pathInfo) (octal 1 1 0) =? 0));
    reflexivity.
Qed.

Lemma spawned_log (l : LogLine) (trace : list Event) :
  spawned (EvLog l :: trace) = spawned trace.
Proof. reflexivity. Qed.

Lemma spawned_handleError req err status message :
  spawned (handleError req err status message) = [].
Proof. reflexivity. Qed.

Lemma spawned_runCmd M req path dir in_ out interactive :
  exists env,
    spawned (runCmd M req path dir in_ out interactive)
    = [ {| Path := path; Dir := dir; Env := env;
           Stdin := in_; Stdout := out; Stderr := out |} ].
Proof.
  unfold runCmd. eexists. cbn [spawned omap list_omap].
  destruct (Run M _); reflexivity.
Qed.

Lemma runCmd_Path M req path dir in_ out interactive :
  map Path (spawned (runCmd M req path dir in_ out interactive)) = [path].
Proof. destruct (spawned_runCmd M req path dir in_ out interactive) as [env ->]. reflexivity. Qed.

Lemma runCmd_Dir M req path dir in_ out interactive :
  map Dir (spawned (runCmd M req path dir in_ out interactive)) = [dir].
Proof. destruct (spawned_runCmd M req path dir in_ out interactive) as [env ->]. reflexivity. Qed.

Lemma classify_regular (m : FileMode) :
  IsRegular m = true ->
  classify m = if Z.land m (octal 1 1 0) =? 0 then InvalidEntry else ExecutableFile.
Proof.
  intros Hr. unfold classify. rewrite (IsRegular_not_dir m Hr), Hr.
  destruct (Z.land m (octal 1 1 0) =? 0); reflexivity.
Qed.

Lemma classify_directory (m : FileMode) : IsDir m = true -> classify m = DirectoryEntry.
Proof. intros Hd. unfold classify. rewrite Hd. reflexivity. Qed.

(** *** The directory of an executable *)

Lemma LastIndex_absent (s : string) :
  occurs "/" s = false -> strings_LastIndex s "/" = -1.
Proof.
  induction s as [| c s IH]; [reflexivity |].
  cbn [occurs strings_LastIndex]. intros H. apply orb_false_iff in H as [Hc Hs].
  rewrite (IH Hs). cbn [Z.leb Z.compare strings_HasPrefix].
  rewrite Ascii.eqb_sym, Hc. reflexivity.
Qed.

Lemma LastIndex_last_slash (d base : string) :
  occurs "/" base = false ->
  strings_LastIndex (d +:+ "/" +:+ base) "/" = Z.of_nat (String.length d).
Proof.
  intros Hbase. induction d as [| c d IH].
  - change (strings_LastIndex (String "/" base) "/" = 0).
    cbn [strings_LastIndex]. rewrite (LastIndex_absent base Hbase). reflexivity.
  - change (String c d +:+ "/" +:+ base) with (String c (d +:+ "/" +:+ base)).
    cbn [strings_LastIndex String.length]. rewrite IH.
    destruct (Z.leb_spec 0 (Z.of_nat (String.length d))); lia.
Qed.

Lemma substring_append (d rest : string) :
  String.substring 0 (String.length d) (d +:+ rest) = d.
Proof.
  induction d as [| c d IH].
  - destruct rest; reflexivity.
  - change (String c d +:+ rest) with (String c (d +:+ rest)).
    cbn [String.length String.substring]. rewrite IH. reflexivity.
Qed.

Lemma slice_to_parent (d base : string) :
  occurs "/" base = false ->
  slice_to (d +:+ "/" +:+ base) (strings_LastIndex (d +:+ "/" +:+ base) "/") = Some d.
Proof.
  intros Hbase. rewrite (LastIndex_last_slash d base Hbase). unfold slice_to.
  rewrite Nat2Z.id, substring_append.
  assert (Hlen : (String.length d <= String.length (d +:+ "/" +:+ base))%nat).
  { clear. induction d as [| c d IH]; [cbn; lia |].
    change (String c d +:+ "/" +:+ base) with (String c (d +:+ "/" +:+ base)).
    cbn [String.length]. lia. }
  destruct (Z.leb_spec 0 (Z.of_nat (String.length d))); [| lia].
  destruct (Z.leb_spec (Z.of_nat (String.length d))
                       (Z.of_nat (String.length (d +:+ "/" +:+ base)))); [reflexivity | lia].
Qed.

(** An executable [d/base] is started in [d]: this is its parent
    directory as soon as [d] is not empty. *)
Lemma execCmd_executable_Dir M req (d base : string) stat pathInfo in_ out interactive :
  occurs "/" base = false ->
  classify (Mode pathInfo) = ExecutableFile ->
  map Dir (spawned (execCmd M req {| Name := d +:+ "/" +:+ base; Stat := stat |}
                            pathInfo in_ out interactive)) = [d].
Proof.
  intros Hbase Hk. rewrite execCmd_kind, Hk. cbn [Name].
  rewrite (slice_to_parent d base Hbase). apply runCmd_Dir.
Qed.

(** A shell for a directory is started in that directory. *)
Lemma execCmd_directory_Dir M req path pathInfo in_ out interactive cwd :
  classify (Mode pathInfo) = DirectoryEntry ->
  Getwd M = Ok cwd ->
  map Dir (spawned (execCmd M req path pathInfo in_ out interactive)) = [Name path].
Proof.
  intros Hk Hwd. rewrite execCmd_kind, Hk, Hwd.
  destruct interactive; [rewrite spawned_log |]; apply runCmd_Dir.
Qed.

Lemma spawned_execCmd_streams (M : Machine) (req : Request) (path : File)
    (pathInfo : FileInfo) (in_ : Reader) (out : Writer) (interactive : bool) (c : Cmd) :
  In c (spawned (execCmd M req path pathInfo in_ out interactive)) ->
  Stdin c = in_ /\ Stdout c = out /\ Stderr c = out.
Proof.
  assert (Hrun : forall p d, In c (spawned (runCmd M req p d in_ out interactive)) ->
                             Stdin c = in_ /\ Stdout c = out /\ Stderr c = out).
  { intros p d Hin. destruct (spawned_runCmd M req p d in_ out interactive) as [env Heq].
    rewrite Heq in Hin. destruct Hin as [<- | []]. repeat split. }
  rewrite execCmd_kind.
  destruct (classify (Mode pathInfo)).
  - destruct interactive; [| apply Hrun].
    destruct (Getwd M) as [dir | err]; [| intros []].
    rewrite spawned_log. apply Hrun.
  - destruct (slice_to _ _); [apply Hrun | intros []].
  - intros [].
Qed.

Lemma spawned_execCmd_Env (M : Machine) (req : Request) (path : File)
    (pathInfo : FileInfo) (in_ : Reader) (out : Writer) (interactive : bool) (c : Cmd) :
  In c (spawned (execCmd M req path pathInfo in_ out interactive)) ->
  Env c = os_Environ (Environ M) ++ cgiEnv M req ++ (if interactive then [PS1] else []).
Proof.
  assert (Hrun : forall p d, In c (spawned (runCmd M req p d in_ out interactive)) ->
            Env c = os_Environ (Environ M) ++ cgiEnv M req
                    ++ (if interactive then [PS1] else [])).
  { intros p d Hin. unfold runCmd in Hin. cbn [spawned omap list_omap] in Hin.
    assert (Hc : c = {| Path := p; Dir := d;
                        Env := (if interactive
                                then (os_Environ (Environ M) ++ cgiEnv M req) ++ [PS1]
                                else os_Environ (Environ M) ++ cgiEnv M req);
                        Stdin := in_; Stdout := out; Stderr := out |}).
    { destruct (Run M _); cbn in Hin; destruct Hin as [<- | []]; reflexivity. }
    rewrite Hc. cbn [Env]. destruct interactive; [rewrite <- app_assoc | rewrite app_nil_r];
      reflexivity. }
  rewrite execCmd_kind.
  destruct (classify (Mode pathInfo)).
  - destruct interactive; [| apply Hrun].
    destruct (Getwd M) as [dir | err]; [| intros []].
    rewrite spawned_log. apply Hrun.
  - destruct (slice_to _ _); [apply Hrun | intros []].
  - intros [].
Qed.

(** C1. In [execCmd], how an entry is treated depends on its mode alone:
    a directory is a [DirectoryEntry] whatever its permission bits and a
    shell is started in it, [bash] for a POST and the pseudo-interactive
    shell for a WebSocket, and it is never answered with the 400 of an
    invalid entry; a regular file is an [ExecutableFile], and is itself
    started, exactly when [mode & 0110] is not zero, that is when the
    owner-execute or the group-execute bit is set; a regular file with
    neither bit is rejected with status 400, also when its world-execute
    bit is set. *)
Theorem execCmd_classification (M : Machine) (req : Request) (path : File)
    (pathInfo : FileInfo) (in_ : Reader) (out : Writer) (interactive : bool) :
  let m := Mode pathInfo in
  let trace := execCmd M req path pathInfo in_ out interactive in
  (IsDir m = true ->
     classify m = DirectoryEntry
     /\ (interactive = false -> map Path (spawned trace) = ["bash"]))
  /\ (IsRegular m = true ->
        (classify m = ExecutableFile <-> Z.land m (octal 1 1 0) <> 0)
        /\ (Z.land m (octal 1 1 0) <> 0
            <-> Z.testbit m ownerExecute = true \/ Z.testbit m groupExecute = true))
  /\ (IsRegular m = true -> Z.land m (octal 1 1 0) <> 0 ->
        forall dir, slice_to (Name path) (strings_LastIndex (Name path) "/") = Some dir ->
        map Path (spawned trace) = [Name path])
  /\ (IsRegular m = true -> Z.land m (octal 1 1 0) = 0 ->
        classify m = InvalidEntry
        /\ trace = handleError req None StatusBadRequest invalidPost
        /\ spawned trace = [])
  /\ (IsDir m = true ->
        trace = (if interactive then
                   match Getwd M with
                   | Err err => [ EvLog (LogFatal err); EvExit 1 ]
                   | Ok dir =>
                       EvLog (LogDir dir)
                       :: runCmd M req (path_Join_bin dir) (Name path) in_ out interactive
                   end
                 else runCmd M req "bash" (Name path) in_ out interactive)
        /\ trace <> handleError req None StatusBadRequest invalidPost
        /\ (forall cwd, Getwd M = Ok cwd ->
              map Path (spawned trace)
              = [ if interactive then path_Join_bin cwd else "bash" ]
              /\ map Dir (spawned trace) = [Name path]))
  /\ (IsRegular m = true -> Z.land m (octal 1 1 0) <> 0 ->
        forall dir, slice_to (Name path) (strings_LastIndex (Name path) "/") = Some dir ->
        trace = runCmd M req (Name path) dir in_ out interactive)
  /\ (forall c, In c (spawned trace) ->
        Stdin c = in_ /\ Stdout c = out /\ Stderr c = out
        /\ Env c = os_Environ (Environ M) ++ cgiEnv M req
                   ++ (if interactive then [PS1] else [])).
Proof.
  intros m trace. subst trace.
  assert (Hchild : forall c,
             In c (spawned (execCmd M req path pathInfo in_ out interactive)) ->
             Stdin c = in_ /\ Stdout c = out /\ Stderr c = out
             /\ Env c = os_Environ (Environ M) ++ cgiEnv M req
                        ++ (if interactive then [PS1] else [])).
  { intros c Hin.
    pose proof (spawned_execCmd_Env M req path pathInfo in_ out interactive c Hin) as Henv.
    apply spawned_execCmd_streams in Hin as (Hi & Ho & He). repeat split; assumption. }
  split; [| split; [| split; [| split; [| split; [| split; [| exact Hchild]]]]]];
    clear Hchild; rewrite ?execCmd_kind; fold m.
  5: { intros Hd. rewrite (classify_directory m Hd). split; [reflexivity |]. split.
       - destruct interactive; [destruct (Getwd M) |]; unfold runCmd; discriminate.
       - intros cwd Hwd. rewrite Hwd.
         destruct interactive; [rewrite spawned_log |];
           (split; [apply runCmd_Path | apply runCmd_Dir]). }
  5: { intros Hr Hx dir Hdir. rewrite (classify_regular m Hr).
       apply Z.eqb_neq in Hx. rewrite Hx, Hdir. reflexivity. }
  - intros Hd. rewrite (classify_directory m Hd). split; [reflexivity |].
    intros ->. apply runCmd_Path.
  - intros Hr. rewrite (classify_regular m Hr). split; [| apply exec_mask_bits].
    destruct (Z.eqb_spec (Z.land m (octal 1 1 0)) 0) as [H0 | H0]; split; congruence.
  - intros Hr Hx dir Hdir. rewrite (classify_regular m Hr).
    apply Z.eqb_neq in Hx. rewrite Hx, Hdir. apply runCmd_Path.
  - intros Hr H0. rewrite (classify_regular m Hr).
    apply Z.eqb_eq in H0. rewrite H0. repeat split.
Qed.

Lemma execCmd_classification_witness :
  classify rwxr_xr_x = ExecutableFile
  /\ (Z.testbit rw_r__r_x worldExecute = true /\ classify rw_r__r_x = InvalidEntry)
  /\ classify (Z.lor ModeDir 0) = DirectoryEntry
  /\ map Path (spawned (execCmd sampleMachine wsRequest
                           {| Name := "/srv"; Stat := Err "unused" |}
                           {| Size := 0; Mode := Z.lor ModeDir 0 |} WsIn WsOut true))
     = [ "/app/bin/pseudo-interactive-bash" ].
Proof.
  pose proof (execCmd_classification sampleMachine wsRequest
                {| Name := "/srv"; Stat := Err "unused" |}
                {| Size := 0; Mode := Z.lor ModeDir 0 |} WsIn WsOut true)
    as (_ & _ & _ & _ & Hws & _).
  pose proof (execCmd_classification sampleMachine (post "/srv/tool")
                {| Name := "/srv/tool"; Stat := Err "unused" |}
                {| Size := 2048; Mode := rwxr_xr_x |} RequestBody FlushWriterWrapper false)
    as (_ & Hexec & _ & _).
  pose proof (execCmd_classification sampleMachine (post "/srv/world.sh")
                {| Name := "/srv/world.sh"; Stat := Err "unused" |}
                {| Size := 64; Mode := rw_r__r_x |} RequestBody FlushWriterWrapper false)
    as (_ & _ & _ & Hworld).
  pose proof (execCmd_classification sampleMachine (post "/srv")
                {| Name := "/srv"; Stat := Err "unused" |}
                {| Size := 0; Mode := Z.lor ModeDir 0 |} RequestBody FlushWriterWrapper false)
    as (Hdir & _).
  cbn zeta in *. cbn [Mode] in *.
  split; [| split; [| split]].
  - apply Hexec; [reflexivity | discriminate].
  - split; [reflexivity | apply Hworld; reflexivity].
  - apply Hdir; reflexivity.
  - exact (proj1 (proj2 (proj2 (Hws ltac:(reflexivity))) "/app" ltac:(reflexivity))).
Defined.

(** ** The dispatcher *)

Lemma handleAny_post (M : Machine) (res : ResponseWriter) (req : Request)
    (path : File) (pathInfo : FileInfo) :
  Open M (URL_Path req) = Opened path ->
  Stat path = Ok pathInfo ->
  strings_HasPrefix (Header_Get (Header req) "Origin") "ws://" = false ->
  Method req = "POST" ->
  Flusher res = true ->
  handleAny M res req =
  EvLog (LogRequest (Method req) (URL_Path req))
  :: execCmd M req path pathInfo RequestBody FlushWriterWrapper false.
Proof.
  intros Hopen Hstat Hws Hpost Hflush. unfold handleAny, handlePost.
  rewrite Hopen, Hstat, Hws, Hflush, Hpost. reflexivity.
Qed.

Lemma os_Open_Name (fs : gmap string Node) (name : string) (f : File) :
  os_Open fs name = Opened f -> Name f = name.
Proof.
  unfold os_Open. destruct (follow fs MAXSYMLINKS name) as [[] | |]; intros [= <-]; reflexivity.
Qed.

(** A link is opened as what it points to. *)
Lemma os_Open_symlink (fs : gmap string Node) (name target : string) (n : Node) :
  fs !! name = Some (Symlink target) ->
  fs !! target = Some n ->
  (forall t, n <> Symlink t) -> (forall p, n <> Socket p) ->
  os_Open fs name =
  Opened {| Name := name; Stat := Ok {| Size := nodeSize n; Mode := nodeMode n |} |}.
Proof.
  intros Hname Htarget Hlink Hsock. unfold os_Open, MAXSYMLINKS.
  cbn [follow]. rewrite Hname, Htarget.
  destruct n; try reflexivity; [exfalso; eapply Hlink | exfalso; eapply Hsock]; reflexivity.
Qed.

Lemma classify_nodeMode_directory (perm : Z) : classify (nodeMode (Directory perm)) = DirectoryEntry.
Proof.
  apply classify_directory. unfold IsDir, nodeMode.
  apply negb_true_iff, Z.eqb_neq. intros H0.
  assert (Hb : Z.testbit (Z.land (Z.lor ModeDir perm) ModeDir) 31 = false)
    by (rewrite H0; apply Z.bits_0).
  rewrite Z.land_spec, Z.lor_spec in Hb. discriminate Hb.
Qed.

(** C3.  Evaluated on [/run.sh], an executable right under the root:
    [execCmd] cuts the name before its last [/] and so leaves [Dir]
    empty; the child then starts in the server's own working directory
    ([/app] here) and not in the parent directory [/]. *)
Theorem root_executable_working_directory :
  let trace := handleAny sampleMachine flushing (post "/run.sh") in
  sampleFs !! "/run.sh" = Some (RegularFile rwxr_xr_x 120)
  /\ map Path (spawned trace) = ["/run.sh"]
  /\ map Dir (spawned trace) = [EmptyString]
  /\ map (workingDirectory "/app") (spawned trace) = ["/app"].
Proof. vm_compute. repeat split. Qed.

(** C2, as stated, fails: [/current] is a symbolic link to the directory
    [/srv] and [/tool] one to the executable [/srv/tool]; a POST to either
    is not rejected, it starts a shell in the first and the program in
    the second. *)
Lemma symlink_is_followed :
  let toDir := handleAny sampleMachine flushing (post "/current") in
  let toExe := handleAny sampleMachine flushing (post "/tool") in
  sampleFs !! "/current" = Some (Symlink "/srv")
  /\ sampleFs !! "/tool" = Some (Symlink "/srv/tool")
  /\ map Path (spawned toDir) = ["bash"]
  /\ map Dir (spawned toDir) = ["/current"]
  /\ map Path (spawned toExe) = ["/tool"]
  /\ ~ In (EvWriteHeader StatusBadRequest) toDir
  /\ ~ In (EvWriteHeader StatusBadRequest) toExe.
Proof.
  vm_compute. repeat split; try reflexivity; intros H;
    repeat (destruct H as [H | H]; [discriminate H |]); exact H.
Qed.

(** C2, amended.  A mode that is not a directory and carries the
    symbolic-link, device, named-pipe or socket bit makes [execCmd] answer
    400 with the invalid-file-type message and start nothing.  But
    [handleAny] opens the path with [os.Open], which follows symbolic
    links, and classifies what was opened: a POST to a link to a directory
    starts a shell whose directory is the link's path, and a POST to a
    link to an executable regular file starts that path as a program. *)
Theorem special_files_rejected_links_followed
    (fs : gmap string Node) (environ : list (string * string)) (cwd : string)
    (res : ResponseWriter) (req : Request) :
  let M := machine fs environ cwd in
  (forall (path : File) (pathInfo : FileInfo) (in_ : Reader) (out : Writer)
          (interactive : bool),
      IsDir (Mode pathInfo) = false ->
      Z.land (Mode pathInfo) ModeSymlink <> 0 \/ Z.land (Mode pathInfo) ModeDevice <> 0
      \/ Z.land (Mode pathInfo) ModeNamedPipe <> 0 \/ Z.land (Mode pathInfo) ModeSocket <> 0 ->
      classify (Mode pathInfo) = InvalidEntry
      /\ execCmd M req path pathInfo in_ out interactive
         = handleError req None StatusBadRequest invalidPost
      /\ spawned (execCmd M req path pathInfo in_ out interactive) = [])
  /\ (forall (target : string),
        Method req = "POST" -> Flusher res = true ->
        strings_HasPrefix (Header_Get (Header req) "Origin") "ws://" = false ->
        fs !! URL_Path req = Some (Symlink target) ->
        (forall perm, fs !! target = Some (Directory perm) ->
           map Path (spawned (handleAny M res req)) = ["bash"]
           /\ map Dir (spawned (handleAny M res req)) = [URL_Path req])
        /\ (forall perm size d base,
              fs !! target = Some (RegularFile perm size) ->
              classify perm = ExecutableFile ->
              URL_Path req = d +:+ "/" +:+ base -> occurs "/" base = false ->
              map Path (spawned (handleAny M res req)) = [URL_Path req]
              /\ map Dir (spawned (handleAny M res req)) = [d])).
Proof.
  intros M. split.
  - intros path pathInfo in_ out interactive Hd Hbits.
    assert (Hr : IsRegular (Mode pathInfo) = false).
    { destruct Hbits as [H | [H | [H | H]]];
        (eapply type_bit_not_regular; [| exact H]); reflexivity. }
    assert (Hk : classify (Mode pathInfo) = InvalidEntry)
      by (unfold classify; rewrite Hd, Hr; reflexivity).
    rewrite execCmd_kind, Hk. repeat split.
  - intros target Hpost Hflush Hws Hlink. split.
    + intros perm Htarget.
      rewrite (handleAny_post M res req
                 {| Name := URL_Path req;
                    Stat := Ok {| Size := nodeSize (Directory perm);
                                  Mode := nodeMode (Directory perm) |} |}
                 {| Size := nodeSize (Directory perm); Mode := nodeMode (Directory perm) |});
        try assumption; try reflexivity.
      * rewrite spawned_log, execCmd_kind. cbn [Mode].
        rewrite classify_nodeMode_directory. cbn [Name].
        split; [apply runCmd_Path | apply runCmd_Dir].
      * apply (os_Open_symlink fs _ target); [assumption | assumption | discriminate | discriminate].
    + intros perm size d base Htarget Hk Hname Hbase.
      rewrite (handleAny_post M res req
                 {| Name := URL_Path req;
                    Stat := Ok {| Size := nodeSize (RegularFile perm size);
                                  Mode := nodeMode (RegularFile perm size) |} |}
                 {| Size := nodeSize (RegularFile perm size);
                    Mode := nodeMode (RegularFile perm size) |});
        try assumption; try reflexivity.
      * rewrite spawned_log, execCmd_kind. cbn [Mode nodeMode Name]. rewrite Hk, Hname.
        rewrite (slice_to_parent d base Hbase).
        split; [apply runCmd_Path | apply runCmd_Dir].
      * apply (os_Open_symlink fs _ target); [assumption | assumption | discriminate | discriminate].
Qed.

Lemma special_files_rejected_links_followed_witness :
  classify (nodeMode (NamedPipe rw_r__r__)) = InvalidEntry
  /\ map Dir (spawned (handleAny sampleMachine flushing (post "/current"))) = ["/current"]
  /\ map Path (spawned (handleAny sampleMachine flushing (post "/tool"))) = ["/tool"].
Proof.
  pose proof (special_files_rejected_links_followed sampleFs
                [("PATH", "/usr/bin:/bin"); ("BASIC_AUTH", "admin:s3cret")] "/app"
                flushing (post "/current")) as [Hmode Hdir].
  pose proof (special_files_rejected_links_followed sampleFs
                [("PATH", "/usr/bin:/bin"); ("BASIC_AUTH", "admin:s3cret")] "/app"
                flushing (post "/tool")) as [_ Hexe].
  cbn zeta in *.
  split; [| split].
  - destruct (Hmode {| Name := "/run/queue"; Stat := Err "unused" |}
                    {| Size := 0; Mode := nodeMode (NamedPipe rw_r__r__) |}
                    RequestBody FlushWriterWrapper false) as [Hk _].
    + reflexivity.
    + right; right; left. vm_compute. discriminate.
    + exact Hk.
  - refine (proj2 (proj1 (Hdir "/srv" _ _ _ _) rwxr_xr_x _)); reflexivity.
  - refine (proj1 (proj2 (Hexe "/srv/tool" _ _ _ _) rwxr_xr_x 2048 EmptyString "tool" _ _ _ _));
      reflexivity.
Defined.

(** ** The CGI environment *)

Lemma foldl_append {A B : Type} (f : B -> A) (l : list B) (acc : list A) :
  foldl (fun env x => env ++ [f x]) acc l = acc ++ map f l.
Proof.
  revert acc. induction l as [| x l IH]; intros acc; cbn [foldl map].
  - symmetry. apply app_nil_r.
  - rewrite IH, <- app_assoc. reflexivity.
Qed.

(** [cgiEnv] in five parts: the fixed variables, [HTTPS], the headers,
    [CONTENT_LENGTH], [CONTENT_TYPE]. *)
Lemma cgiEnv_parts (M : Machine) (req : Request) :
  cgiEnv M req =
  [ "SERVER_SOFTWARE=go";
    "SERVER_NAME=" +:+ Host req;
    "SERVER_PROTOCOL=HTTP/1.1";
    "HTTP_HOST=" +:+ Host req;
    "GATEWAY_INTERFACE=CGI/1.1";
    "REQUEST_METHOD=" +:+ Method req;
    "QUERY_STRING=" +:+ URL_RawQuery req;
    "REQUEST_URI=" +:+ URL_RequestURI req;
    "PATH_INFO=" +:+ URL_Path req;
    "SCRIPT_NAME=" +:+ URL_Path req;
    "SCRIPT_FILENAME=" +:+ URL_Path req;
    "REMOTE_ADDR=" +:+ RemoteAddr req;
    "REMOTE_HOST=" +:+ RemoteAddr req;
    "SERVER_PORT=" +:+ httpPort M ]
  ++ (if TLS req then ["HTTPS=on"] else [])
  ++ map (fun kv => headerEnv (fst kv) (snd kv)) (map_to_list (Header req))
  ++ (if 0 <? ContentLength req
      then ["CONTENT_LENGTH=" +:+ format_d (ContentLength req)] else [])
  ++ (if negb (String.eqb (Header_Get (Header req) "Content-Type") "")
      then ["CONTENT_TYPE=" +:+ Header_Get (Header req) "Content-Type"] else []).
Proof.
  unfold cgiEnv. cbv zeta. rewrite foldl_append.
  destruct (TLS req), (0 <? ContentLength req),
    (negb (String.eqb (Header_Get (Header req) "Content-Type") ""));
    rewrite <- ?app_assoc, ?app_nil_r; reflexivity.
Qed.

Lemma In_header_entries (req : Request) (e : string) :
  In e (map (fun kv => headerEnv (fst kv) (snd kv)) (map_to_list (Header req)))
  <-> exists k v, Header req !! k = Some v /\ e = headerEnv k v.
Proof.
  rewrite in_map_iff. split.
  - intros [[k v] [<- Hin]]. exists k, v. split; [| reflexivity].
    apply elem_of_map_to_list, list_elem_of_In. exact Hin.
  - intros (k & v & Hkv & ->). exists (k, v). split; [reflexivity |].
    apply list_elem_of_In, elem_of_map_to_list. exact Hkv.
Qed.

Lemma envKey_HTTP_ (rest : string) : envKey ("HTTP_" +:+ rest) = "HTTP_" +:+ envKey rest.
Proof. reflexivity. Qed.

(** The entries of [cgiEnv], by origin, with their keys. *)
Lemma In_cgiEnv (M : Machine) (req : Request) (e : string) :
  In e (cgiEnv M req) <->
  In e [ "SERVER_SOFTWARE=go";
         "SERVER_NAME=" +:+ Host req;
         "SERVER_PROTOCOL=HTTP/1.1";
         "HTTP_HOST=" +:+ Host req;
         "GATEWAY_INTERFACE=CGI/1.1";
         "REQUEST_METHOD=" +:+ Method req;
         "QUERY_STRING=" +:+ URL_RawQuery req;
         "REQUEST_URI=" +:+ URL_RequestURI req;
         "PATH_INFO=" +:+ URL_Path req;
         "SCRIPT_NAME=" +:+ URL_Path req;
         "SCRIPT_FILENAME=" +:+ URL_Path req;
         "REMOTE_ADDR=" +:+ RemoteAddr req;
         "REMOTE_HOST=" +:+ RemoteAddr req;
         "SERVER_PORT=" +:+ httpPort M ]
  \/ (TLS req = true /\ e = "HTTPS=on")
  \/ (exists k v, Header req !! k = Some v /\ e = headerEnv k v)
  \/ (0 < ContentLength req /\ e = "CONTENT_LENGTH=" +:+ format_d (ContentLength req))
  \/ (Header_Get (Header req) "Content-Type" <> ""
      /\ e = "CONTENT_TYPE=" +:+ Header_Get (Header req) "Content-Type").
Proof.
  rewrite cgiEnv_parts, !in_app_iff, In_header_entries.
  assert (Htls : In e (if TLS req then ["HTTPS=on"] else [])
                 <-> TLS req = true /\ e = "HTTPS=on").
  { destruct (TLS req); cbn; intuition congruence. }
  assert (Hlen : In e (if 0 <? ContentLength req
                       then ["CONTENT_LENGTH=" +:+ format_d (ContentLength req)] else [])
                 <-> 0 < ContentLength req
                     /\ e = "CONTENT_LENGTH=" +:+ format_d (ContentLength req)).
  { destruct (Z.ltb_spec 0 (ContentLength req)); cbn; intuition (congruence || lia). }
  assert (Htype : In e (if negb (String.eqb (Header_Get (Header req) "Content-Type") "")
                        then ["CONTENT_TYPE=" +:+ Header_Get (Header req) "Content-Type"]
                        else [])
                  <-> Header_Get (Header req) "Content-Type" <> ""
                      /\ e = "CONTENT_TYPE=" +:+ Header_Get (Header req) "Content-Type").
  { destruct (String.eqb_spec (Header_Get (Header req) "Content-Type") "") as [Heq | Hne];
      cbn; intuition congruence. }
  rewrite Htls, Hlen, Htype. reflexivity.
Qed.

Lemma envKey_headerEnv (k : string) (v : list string) :
  exists rest,
    envKey (headerEnv k v) = String "H" (String "T" (String "T" (String "P" (String "_" rest)))).
Proof. eexists. reflexivity. Qed.

Ltac key_clash H := first [ discriminate H | vm_compute in H; discriminate H ].

(** Which entry of [cgiEnv] a key can come from: none of the fixed
    variables and no header yields [CONTENT_LENGTH] or [HTTPS]. *)
Lemma cgiEnv_key_origin (M : Machine) (req : Request) (e : string) :
  In e (cgiEnv M req) ->
  (envKey e = "CONTENT_LENGTH" ->
     0 < ContentLength req /\ e = "CONTENT_LENGTH=" +:+ format_d (ContentLength req))
  /\ (envKey e = "HTTPS" -> TLS req = true /\ e = "HTTPS=on").
Proof.
  intros Hin. apply In_cgiEnv in Hin.
  destruct Hin as [Hbase | [[Htls ->] | [(k & v & _ & ->) | [[Hlen ->] | [Hct ->]]]]].
  - cbn [In] in Hbase.
    repeat (destruct Hbase as [<- | Hbase]; [split; intros H; key_clash H |]).
    destruct Hbase.
  - split; intros H; [key_clash H | split; [assumption | reflexivity]].
  - destruct (envKey_headerEnv k v) as [rest ->]. split; intros H; discriminate H.
  - split; intros H; [split; [assumption | reflexivity] | key_clash H].
  - split; intros H; key_clash H.
Qed.

Example format_d_1024 : format_d 1024 = "1024".
Proof. reflexivity. Qed.

(** C4.  The environment built by [cgiEnv] has an entry with key
    [CONTENT_LENGTH] exactly when the request's declared content length
    is greater than zero, and an entry with key [HTTPS] exactly when the
    connection used TLS; these entries are [CONTENT_LENGTH=<length>] and
    [HTTPS=on]. *)
Theorem cgiEnv_CONTENT_LENGTH_HTTPS (M : Machine) (req : Request) :
  (hasKey "CONTENT_LENGTH" (cgiEnv M req) <-> 0 < ContentLength req)
  /\ (hasKey "HTTPS" (cgiEnv M req) <-> TLS req = true)
  /\ (forall e, In e (cgiEnv M req) ->
        (envKey e = "CONTENT_LENGTH" -> e = "CONTENT_LENGTH=" +:+ format_d (ContentLength req))
        /\ (envKey e = "HTTPS" -> e = "HTTPS=on")).
Proof.
  split; [| split].
  - split.
    + intros (e & Hin & Hkey). apply (cgiEnv_key_origin M req e Hin). exact Hkey.
    + intros Hlen. exists ("CONTENT_LENGTH=" +:+ format_d (ContentLength req)).
      split; [| reflexivity]. apply In_cgiEnv. do 3 right. left. split; [assumption | reflexivity].
  - split.
    + intros (e & Hin & Hkey). apply (cgiEnv_key_origin M req e Hin). exact Hkey.
    + intros Htls. exists "HTTPS=on". split; [| reflexivity].
      apply In_cgiEnv. right. left. split; [assumption | reflexivity].
  - intros e Hin. split; intros Hkey; apply (cgiEnv_key_origin M req e Hin); exact Hkey.
Qed.

Lemma cgiEnv_CONTENT_LENGTH_HTTPS_witness :
  hasKey "CONTENT_LENGTH" (cgiEnv sampleMachine uploadRequest)
  /\ hasKey "HTTPS" (cgiEnv sampleMachine uploadRequest)
  /\ ~ hasKey "CONTENT_LENGTH" (cgiEnv sampleMachine cookieRequest)
  /\ ~ hasKey "HTTPS" (cgiEnv sampleMachine cookieRequest).
Proof.
  pose proof (cgiEnv_CONTENT_LENGTH_HTTPS sampleMachine uploadRequest) as (Hlen & Htls & _).
  pose proof (cgiEnv_CONTENT_LENGTH_HTTPS sampleMachine cookieRequest) as (Hlen' & Htls' & _).
  split; [| split; [| split]].
  - apply Hlen. reflexivity.
  - apply Htls. reflexivity.
  - intros H. apply Hlen' in H. discriminate H.
  - intros H. apply Htls' in H. discriminate H.
Defined.

(** ** Folding a header name *)

Lemma In_bytes (c : ascii) : In c bytes.
Proof.
  unfold bytes. rewrite <- (ascii_nat_embedding c). apply in_map, in_seq.
  pose proof (nat_ascii_bounded c). lia.
Qed.

Lemma for_all_bytes (p : ascii -> bool) :
  forallb p bytes = true -> forall c, p c = true.
Proof. intros Hall c. exact (proj1 (forallb_forall p bytes) Hall c (In_bytes c)). Qed.

Lemma upperCaseAndUnderscore_byte (c : ascii) :
  byte_of (upperCaseAndUnderscore (rune_of c)) = foldedByte c.
Proof.
  apply Ascii.eqb_eq. revert c.
  apply (for_all_bytes
           (fun c => Ascii.eqb (byte_of (upperCaseAndUnderscore (rune_of c))) (foldedByte c))).
  vm_compute. reflexivity.
Qed.

Lemma strings_Map_bytes (s : string) :
  strings_Map upperCaseAndUnderscore s = mapBytes foldedByte s.
Proof.
  induction s as [| c s IH]; [reflexivity |].
  cbn [strings_Map mapBytes]. rewrite upperCaseAndUnderscore_byte, IH. reflexivity.
Qed.

Lemma foldedByte_plain (c : ascii) :
  negb (isLower (foldedByte c)) && negb (Ascii.eqb (foldedByte c) "-")
  && negb (Ascii.eqb (foldedByte c) "=") = true.
Proof.
  revert c.
  apply (for_all_bytes
           (fun c => negb (isLower (foldedByte c)) && negb (Ascii.eqb (foldedByte c) "-")
                     && negb (Ascii.eqb (foldedByte c) "="))).
  vm_compute. reflexivity.
Qed.

Lemma foldedByte_upper (c u : ascii) :
  isUpper u = true -> Ascii.eqb (foldedByte c) u = Ascii.eqb (toLower c) (toLower u).
Proof.
  intros Hu.
  pose proof (for_all_bytes
    (fun c => forallb (fun u => implb (isUpper u)
                (Bool.eqb (Ascii.eqb (foldedByte c) u) (Ascii.eqb (toLower c) (toLower u))))
              bytes)) as Hall.
  specialize (Hall ltac:(vm_compute; reflexivity) c).
  pose proof (proj1 (forallb_forall _ bytes) Hall u (In_bytes u)) as H.
  cbv beta in H. rewrite Hu in H. apply eqb_prop. exact H.
Qed.

Lemma mapBytes_length (f : ascii -> ascii) (s : string) :
  String.length (mapBytes f s) = String.length s.
Proof. induction s as [| c s IH]; cbn; [reflexivity | rewrite IH; reflexivity]. Qed.

Lemma mapBytes_get (f : ascii -> ascii) (s : string) (i : nat) :
  String.get i (mapBytes f s) = option_map f (String.get i s).
Proof.
  revert i. induction s as [| c s IH]; intros i; [reflexivity |].
  destruct i as [| i]; cbn; [reflexivity | apply IH].
Qed.

Lemma allBytes_mapBytes (p : ascii -> bool) (f : ascii -> ascii) (s : string) :
  (forall c, p (f c) = true) -> allBytes p (mapBytes f s) = true.
Proof.
  intros Hp. induction s as [| c s IH]; [reflexivity |].
  cbn [mapBytes allBytes]. rewrite Hp, IH. reflexivity.
Qed.

Lemma occurs_allBytes (c : ascii) (s : string) :
  allBytes (fun d => negb (Ascii.eqb d c)) s = true -> occurs c s = false.
Proof.
  induction s as [| d s IH]; [reflexivity |].
  cbn [allBytes occurs]. intros H. apply andb_true_iff in H as [Hd Hs].
  apply negb_true_iff in Hd. rewrite Hd, (IH Hs). reflexivity.
Qed.

(** No [=] is left in a folded name. *)
Lemma folded_name_no_equals (name : string) :
  occurs "=" (strings_Map upperCaseAndUnderscore name) = false.
Proof.
  rewrite strings_Map_bytes. apply occurs_allBytes, allBytes_mapBytes.
  intros c. pose proof (foldedByte_plain c) as H.
  apply andb_true_iff in H as [_ H]. exact H.
Qed.

(** A folded name is a given word in capitals exactly when the name is
    that word up to case. *)
Lemma folded_name_eqb (name word : string) :
  allBytes isUpper word = true ->
  String.eqb (strings_Map upperCaseAndUnderscore name) word = equalFold name word.
Proof.
  rewrite strings_Map_bytes. unfold equalFold.
  revert word. induction name as [| c name IH]; intros [| u word] Hword; try reflexivity.
  cbn [allBytes] in Hword. apply andb_true_iff in Hword as [Hu Hword].
  cbn [mapBytes String.eqb]. rewrite (foldedByte_upper c u Hu), (IH word Hword). reflexivity.
Qed.

Lemma folded_name_COOKIE (name : string) :
  String.eqb (strings_Map upperCaseAndUnderscore name) "COOKIE" = equalFold name "Cookie".
Proof. apply (folded_name_eqb name "COOKIE"). reflexivity. Qed.

Lemma header_in_cgiEnv (M : Machine) (req : Request) (k : string) (v : list string) :
  Header req !! k = Some v -> In (headerEnv k v) (cgiEnv M req).
Proof. intros Hkv. apply In_cgiEnv. do 2 right. left. exists k, v. split; [assumption | reflexivity]. Qed.

Example strings_Join_three : strings_Join ["a"; "b"; "c"] ", " = "a, b, c".
Proof. reflexivity. Qed.

(** C5.  Every header of the request gives the entry
    [HTTP_<folded name>=<values>], in which the values are joined with
    [", "], except that they are joined with ["; "] when the name is
    [Cookie] up to the case of its letters. *)
Theorem header_values_joined (M : Machine) (req : Request) (k : string) (v : list string) :
  Header req !! k = Some v ->
  In ("HTTP_" +:+ strings_Map upperCaseAndUnderscore k +:+ "="
      +:+ strings_Join v (if equalFold k "Cookie" then "; " else ", "))
     (cgiEnv M req).
Proof.
  intros Hkv. rewrite <- folded_name_COOKIE. exact (header_in_cgiEnv M req k v Hkv).
Qed.

Lemma header_values_joined_witness :
  In "HTTP_COOKIE=sid=abc; theme=dark" (cgiEnv sampleMachine cookieRequest)
  /\ In "HTTP_ACCEPT=text/html, application/json" (cgiEnv sampleMachine cookieRequest).
Proof.
  split.
  - apply (header_values_joined sampleMachine cookieRequest "Cookie" ["sid=abc"; "theme=dark"]).
    vm_compute. reflexivity.
  - apply (header_values_joined sampleMachine cookieRequest "Accept"
             ["text/html"; "application/json"]).
    vm_compute. reflexivity.
Defined.

(** C6, as stated, fails: the [.] of the header name [X-Api.version] is
    neither a letter nor a digit and stays in the key. *)
Lemma dot_stays_in_key :
  strings_Map upperCaseAndUnderscore "X-Api.version" = "X_API.VERSION"
  /\ allBytes (fun c => isUpper c || isDigit c || Ascii.eqb c "_")
              (strings_Map upperCaseAndUnderscore "X-Api.version") = false
  /\ In "HTTP_X_API.VERSION=2" (cgiEnv sampleMachine cookieRequest)
  /\ envKey "HTTP_X_API.VERSION=2" = "HTTP_X_API.VERSION".
Proof.
  split; [reflexivity | split; [reflexivity | split; [| reflexivity]]].
  apply (header_in_cgiEnv sampleMachine cookieRequest "X-Api.version" ["2"]).
  vm_compute. reflexivity.
Qed.

(** C6, amended.  The key of a header is [HTTP_] followed by the name in
    which the letters [a]-[z] are replaced by their capitals and [-] and
    [=] by [_]; every other byte, punctuation such as [.] included, stays
    as it is.  So the folded name has the length of the name and holds no
    small letter, no [-] and no [=]. *)
Theorem header_key_folding (name : string) (v : list string) :
  let folded := strings_Map upperCaseAndUnderscore name in
  envKey (headerEnv name v) = "HTTP_" +:+ folded
  /\ String.length folded = String.length name
  /\ (forall i, String.get i folded = option_map foldedByte (String.get i name))
  /\ allBytes (fun c => negb (isLower c) && negb (Ascii.eqb c "-") && negb (Ascii.eqb c "="))
              folded = true.
Proof.
  cbv zeta. split; [| split; [| split]].
  - unfold headerEnv. cbv zeta.
    generalize (strings_Join v (if String.eqb (strings_Map upperCaseAndUnderscore name) "COOKIE"
                                then "; " else ", ")).
    pose proof (folded_name_no_equals name) as Hno.
    revert Hno. generalize (strings_Map upperCaseAndUnderscore name). intros folded Hno value.
    change (String "H" (String "T" (String "T" (String "P" (String "_"
              (envKey (folded +:+ "=" +:+ value))))))
            = String "H" (String "T" (String "T" (String "P" (String "_" folded))))).
    do 5 f_equal.
    induction folded as [| c folded IH]; [reflexivity |].
    change (String c folded +:+ "=" +:+ value) with (String c (folded +:+ "=" +:+ value)).
    cbn [occurs envKey] in *. apply orb_false_iff in Hno as [Hc Hrest].
    rewrite Hc, (IH Hrest). reflexivity.
  - rewrite strings_Map_bytes. apply mapBytes_length.
  - intros i. rewrite strings_Map_bytes. apply mapBytes_get.
  - rewrite strings_Map_bytes. apply allBytes_mapBytes. exact foldedByte_plain.
Qed.

Lemma envKey_append (key value : string) :
  occurs "=" key = false -> envKey (key +:+ "=" +:+ value) = key.
Proof.
  induction key as [| c key IH]; [reflexivity |].
  change (String c key +:+ "=" +:+ value) with (String c (key +:+ "=" +:+ value)).
  cbn [occurs envKey]. intros H. apply orb_false_iff in H as [Hc Hrest].
  rewrite Hc, (IH Hrest). reflexivity.
Qed.

Lemma envValue_append (key value : string) :
  occurs "=" key = false -> envValue (key +:+ "=" +:+ value) = value.
Proof.
  induction key as [| c key IH]; [reflexivity |].
  change (String c key +:+ "=" +:+ value) with (String c (key +:+ "=" +:+ value)).
  cbn [occurs envValue]. intros H. apply orb_false_iff in H as [Hc Hrest].
  rewrite Hc. exact (IH Hrest).
Qed.

(** C7, as stated, fails: the [=] inside the values of the [Cookie]
    header are still there in the entry built for it. *)
Lemma equals_stays_in_value :
  Header cookieRequest !! "Cookie" = Some ["sid=abc"; "theme=dark"]
  /\ In "HTTP_COOKIE=sid=abc; theme=dark" (cgiEnv sampleMachine cookieRequest)
  /\ envValue "HTTP_COOKIE=sid=abc; theme=dark" = "sid=abc; theme=dark"
  /\ occurs "=" (envValue "HTTP_COOKIE=sid=abc; theme=dark") = true.
Proof.
  assert (H : Header cookieRequest !! "Cookie" = Some ["sid=abc"; "theme=dark"])
    by (vm_compute; reflexivity).
  split; [exact H | split; [| split; reflexivity]].
  exact (header_in_cgiEnv sampleMachine cookieRequest "Cookie" ["sid=abc"; "theme=dark"] H).
Qed.

(** C7, amended.  In the entry built for a header, only the name is
    folded: the key [HTTP_<folded name>] holds no [=], so the first [=] of
    the entry is the separator, and what follows it is the header's
    values joined, unchanged, with every [=] they hold. *)
Theorem header_value_verbatim (M : Machine) (req : Request) (k : string) (v : list string) :
  Header req !! k = Some v ->
  In (headerEnv k v) (cgiEnv M req)
  /\ envKey (headerEnv k v) = "HTTP_" +:+ strings_Map upperCaseAndUnderscore k
  /\ occurs "=" (envKey (headerEnv k v)) = false
  /\ envValue (headerEnv k v)
     = strings_Join v (if equalFold k "Cookie" then "; " else ", ").
Proof.
  intros Hkv.
  assert (Hno : occurs "=" ("HTTP_" +:+ strings_Map upperCaseAndUnderscore k) = false)
    by exact (folded_name_no_equals k).
  assert (Hkey : envKey (headerEnv k v) = "HTTP_" +:+ strings_Map upperCaseAndUnderscore k).
  { unfold headerEnv. cbv zeta.
    exact (envKey_append ("HTTP_" +:+ strings_Map upperCaseAndUnderscore k) _ Hno). }
  split; [exact (header_in_cgiEnv M req k v Hkv) | split; [exact Hkey | split]].
  - rewrite Hkey. exact Hno.
  - rewrite <- folded_name_COOKIE. unfold headerEnv. cbv zeta.
    exact (envValue_append ("HTTP_" +:+ strings_Map upperCaseAndUnderscore k) _ Hno).
Qed.

Lemma header_value_verbatim_witness :
  envValue (headerEnv "Cookie" ["sid=abc"; "theme=dark"]) = "sid=abc; theme=dark".
Proof.
  refine (proj2 (proj2 (proj2
            (header_value_verbatim sampleMachine cookieRequest "Cookie"
                                   ["sid=abc"; "theme=dark"] _)))).
  vm_compute. reflexivity.
Defined.

Lemma Header_Get_value (h : gmap string (list string)) (key value : string) :
  Header_Get h key = value -> value <> "" -> exists rest, h !! key = Some (value :: rest).
Proof.
  unfold Header_Get. intros Hget Hne.
  destruct (h !! key) as [[| v rest] |]; try congruence.
  exists rest. congruence.
Qed.

(** C10.  When [req.Header.Get("Content-Type")] is not empty, the
    environment holds two entries for that header: the entry
    [HTTP_CONTENT_TYPE=<values joined with ", ">] made by the loop over
    the headers (the value itself when there is one), and, after it and
    last, the entry [CONTENT_TYPE=<first value>]. *)
Theorem content_type_twice (M : Machine) (req : Request) (ctype : string) :
  Header_Get (Header req) "Content-Type" = ctype ->
  ctype <> "" ->
  exists rest front,
    Header req !! "Content-Type" = Some (ctype :: rest)
    /\ cgiEnv M req = front ++ ["CONTENT_TYPE=" +:+ ctype]
    /\ In ("HTTP_CONTENT_TYPE=" +:+ strings_Join (ctype :: rest) ", ") front
    /\ (rest = [] -> In ("HTTP_CONTENT_TYPE=" +:+ ctype) front).
Proof.
  intros Hget Hne.
  destruct (Header_Get_value _ _ _ Hget Hne) as [rest Hkv].
  exists rest. rewrite cgiEnv_parts, Hget.
  destruct (String.eqb_spec ctype "") as [Heq | _]; [contradiction |].
  cbn [negb]. rewrite !app_assoc. eexists. split; [exact Hkv | split; [reflexivity |]].
  assert (Hin : In ("HTTP_CONTENT_TYPE=" +:+ strings_Join (ctype :: rest) ", ")
                   (map (fun kv => headerEnv (fst kv) (snd kv)) (map_to_list (Header req)))).
  { apply In_header_entries. exists "Content-Type", (ctype :: rest).
    split; [exact Hkv | reflexivity]. }
  split.
  - rewrite !in_app_iff. left. right. exact Hin.
  - intros ->. rewrite !in_app_iff. left. right. exact Hin.
Qed.

Lemma content_type_twice_witness :
  exists front,
    cgiEnv sampleMachine cookieRequest = front ++ ["CONTENT_TYPE=text/plain"]
    /\ In "HTTP_CONTENT_TYPE=text/plain" front.
Proof.
  destruct (content_type_twice sampleMachine cookieRequest "text/plain")
    as (rest & front & Hkv & Henv & _ & Hone).
  - vm_compute. reflexivity.
  - discriminate.
  - exists front. split; [exact Henv |]. apply Hone.
    assert (Hkv' : Header cookieRequest !! "Content-Type" = Some ["text/plain"])
      by (vm_compute; reflexivity).
    congruence.
Defined.

(** ** The flushing writer *)

Section FlushWriter.

Context {T : Type} `{flushWriter T}.

Lemma flushWriterWrapper_Write_recorded (fw : T) (calls : list Call) (p : string) :
  flushWriterWrapper_Write (fw, calls) p =
  ((Flush (fst (Write fw p)), calls ++ [CallWrite p; CallFlush]), snd (Write fw p)).
Proof.
  unfold flushWriterWrapper_Write. cbn.
  destruct (Write fw p) as [t [n err]]. cbn. rewrite <- app_assoc. reflexivity.
Qed.

Lemma flushedAfterEachWrite_writeAndFlush (chunks : list string) :
  flushedAfterEachWrite (writeAndFlush chunks) = true.
Proof. induction chunks as [| p chunks IH]; [reflexivity | exact IH]. Qed.

Lemma io_Copy_recorded (chunks : list string) (fw : T) (calls : list Call) :
  exists written rest,
    chunks = written ++ rest
    /\ snd (fst (io_Copy flushWriterWrapper_Write (fw, calls) chunks))
       = calls ++ writeAndFlush written
    /\ (snd (io_Copy flushWriterWrapper_Write (fw, calls) chunks) = None -> rest = []).
Proof.
  revert fw calls. induction chunks as [| p chunks IH]; intros fw calls.
  - exists [], []. cbn. rewrite app_nil_r. repeat split.
  - cbn [io_Copy]. rewrite flushWriterWrapper_Write_recorded.
    destruct (Write fw p) as [t [nw [e |]]]; cbn [fst snd].
    + exists [p], chunks. cbn. repeat split. discriminate.
    + destruct (nw =? Z.of_nat (String.length p)).
      * destruct (IH (Flush t) (calls ++ [CallWrite p; CallFlush]))
          as (written & rest & -> & Hcalls & Hdone).
        exists (p :: written), rest. rewrite Hcalls, <- app_assoc. repeat split. exact Hdone.
      * exists [p], chunks. cbn. repeat split. discriminate.
Qed.

End FlushWriter.

Lemma io_Copy_ext {T : Type} (w1 w2 : T -> string -> T * (Z * option error))
    (chunks : list string) (dst : T) :
  (forall t p, w1 t p = w2 t p) -> io_Copy w1 dst chunks = io_Copy w2 dst chunks.
Proof.
  intros Hext. revert dst. induction chunks as [| p chunks IH]; intros dst; [reflexivity |].
  cbn [io_Copy]. rewrite Hext. destruct (w2 dst p) as [t [nw [e |]]]; [reflexivity |].
  destruct (nw =? Z.of_nat (String.length p)); [apply IH | reflexivity].
Qed.

(** C8.  On the POST path the output of the child goes through
    [flushWriterWrapper]: whatever the transport answers, every write is
    directly followed by a flush before [Write] returns, for as long as
    the copy goes on (to the end when no write fails).  The flush cannot
    fail the request: [Write] returns the count and the error of the
    transport's own write, whatever [Flush] did, and over a transport
    whose [Flush] does nothing the wrapper writes exactly as the
    transport does.  The response writers [net/http] hands to a handler
    have a [Flush] method ([Flusher res = true]); for them [handlePost]
    goes on to [execCmd] with the wrapper as the child's output. *)
Theorem post_output_flushed (T : Type) (W : flushWriter T) (fw : T) (chunks : list string)
    (M : Machine) (res : ResponseWriter) (req : Request) (path : File)
    (pathInfo : FileInfo) :
  Flusher res = true ->
  let copied := io_Copy flushWriterWrapper_Write (fw, []) chunks in
  (exists written rest,
      chunks = written ++ rest
      /\ snd (fst copied) = writeAndFlush written
      /\ (snd copied = None -> rest = []))
  /\ flushedAfterEachWrite (snd (fst copied)) = true
  /\ (forall c, In c (spawned (handlePost M res req path pathInfo)) ->
        Stdout c = FlushWriterWrapper /\ Stderr c = FlushWriterWrapper)
  /\ handlePost M res req path pathInfo
     = execCmd M req path pathInfo RequestBody FlushWriterWrapper false
  /\ (forall (t : T) (p : string),
        snd (flushWriterWrapper_Write t p) = snd (Write t p))
  /\ ((forall t : T, Flush t = t) ->
        (forall (t : T) (p : string), flushWriterWrapper_Write t p = Write t p)
        /\ io_Copy flushWriterWrapper_Write fw chunks = io_Copy Write fw chunks).
Proof.
  intros Hflusher. cbv zeta.
  destruct (io_Copy_recorded chunks fw []) as (written & rest & Hsplit & Hcalls & Hdone).
  cbn [app] in Hcalls.
  assert (Hpost : handlePost M res req path pathInfo
                  = execCmd M req path pathInfo RequestBody FlushWriterWrapper false)
    by (unfold handlePost; rewrite Hflusher; reflexivity).
  split; [| split; [| split; [| split; [| split]]]].
  - exists written, rest. repeat split; assumption.
  - rewrite Hcalls. apply flushedAfterEachWrite_writeAndFlush.
  - intros c Hin. rewrite Hpost in Hin.
    apply spawned_execCmd_streams in Hin as (_ & Hout & Herr). split; assumption.
  - exact Hpost.
  - intros t p. unfold flushWriterWrapper_Write.
    destruct (Write t p) as [t' [n err]]. reflexivity.
  - intros Hnoop.
    assert (Hsame : forall (t : T) (p : string), flushWriterWrapper_Write t p = Write t p).
    { intros t p. unfold flushWriterWrapper_Write.
      destruct (Write t p) as [t' [n err]]. rewrite Hnoop. reflexivity. }
    split; [exact Hsame | apply io_Copy_ext, Hsame].
Qed.

Lemma post_output_flushed_witness :
  snd (fst (io_Copy flushWriterWrapper_Write (tt, []) ["hi"; "there"]))
  = [CallWrite "hi"; CallFlush; CallWrite "there"; CallFlush]
  /\ io_Copy flushWriterWrapper_Write tt ["hi"; "there"] = io_Copy Write tt ["hi"; "there"].
Proof.
  destruct (post_output_flushed unit sink tt ["hi"; "there"] sampleMachine flushing
              (post "/srv")
              {| Name := "/srv"; Stat := Err "unused" |}
              {| Size := 0; Mode := nodeMode (Directory rwxr_xr_x) |} ltac:(reflexivity))
    as ((written & rest & Hsplit & Hcalls & Hdone) & _ & _ & _ & _ & Hnoop).
  cbv zeta in *. rewrite (Hdone ltac:(reflexivity)), app_nil_r in Hsplit. subst written.
  split; [exact Hcalls |]. apply Hnoop. intros []. reflexivity.
Defined.

(** ** The basic-auth gate *)

Lemma init_requireBasicAuth (M : Machine) :
  Getenv (Environ M) "BASIC_AUTH" <> "" -> requireBasicAuth (init M) = true.
Proof.
  intros Hne. unfold init.
  destruct (String.eqb_spec (Getenv (Environ M) "BASIC_AUTH") ""); [contradiction | reflexivity].
Qed.

Lemma strings_SplitN2_pair (user password : string) :
  occurs ":" user = false ->
  strings_SplitN2 (user +:+ ":" +:+ password) ":" = [user; password].
Proof.
  induction user as [| c user IH]; [reflexivity |].
  change (String c user +:+ ":" +:+ password) with (String c (user +:+ ":" +:+ password)).
  cbn [occurs strings_SplitN2]. intros H. apply orb_false_iff in H as [Hc Hrest].
  rewrite Hc, (IH Hrest). reflexivity.
Qed.

(** The credentials configured by [BASIC_AUTH=user:password]. *)
Lemma init_pair (M : Machine) (user password : string) :
  occurs ":" user = false ->
  Getenv (Environ M) "BASIC_AUTH" = user +:+ ":" +:+ password ->
  init M = {| requireBasicAuth := true; authUser := user; authPassword := password |}.
Proof.
  intros Huser Henv. unfold init. rewrite Henv.
  assert (Hne : String.eqb (user +:+ ":" +:+ password) "" = false) by (destruct user; reflexivity).
  rewrite Hne, (strings_SplitN2_pair user password Huser). reflexivity.
Qed.

Lemma authorize_rejects (cfg : Config) (handler : Handler) (res : ResponseWriter)
    (req : Request) :
  requireBasicAuth cfg = true ->
  BasicAuth req <> Some (authUser cfg, authPassword cfg) ->
  authorize cfg handler res req
  = notAuthorized req (match BasicAuth req with
                       | None => "Authorization Required"
                       | Some _ => "Not Authorized"
                       end).
Proof.
  intros Hreq Hbad. unfold authorize. rewrite Hreq.
  destruct (BasicAuth req) as [[user pass] |]; [| reflexivity].
  destruct (String.eqb_spec user (authUser cfg)) as [-> |]; [| reflexivity].
  destruct (String.eqb_spec pass (authPassword cfg)) as [-> |]; [| reflexivity].
  contradiction Hbad. reflexivity.
Qed.

(** C9.  When [BASIC_AUTH] is set, a request that does not carry the
    configured user and password is answered by [authorize] with status
    401 and the JSON error whose message is [Not Authorized], whatever
    the handler behind it, which is not run; this holds for each handler
    [main] registers, the exit endpoint and the paths. *)
Theorem unauthenticated_rejected (M : Machine) (res : ResponseWriter) (req : Request) :
  Getenv (Environ M) "BASIC_AUTH" <> "" ->
  BasicAuth req <> Some (authUser (init M), authPassword (init M)) ->
  (forall user password,
      occurs ":" user = false ->
      Getenv (Environ M) "BASIC_AUTH" = user +:+ ":" +:+ password ->
      authUser (init M) = user /\ authPassword (init M) = password)
  /\ exists cause,
    (forall handler, authorize (init M) handler res req = notAuthorized req cause)
    /\ (forall pattern handler, In (pattern, handler) (routes M) ->
          handler res req = notAuthorized req cause)
    /\ In (EvWriteHeader StatusUnauthorized) (notAuthorized req cause)
    /\ In (EvWrite (JSON {| Message := "Not Authorized"; Cause := Some cause |}))
          (notAuthorized req cause)
    /\ spawned (notAuthorized req cause) = []
    /\ (forall code, ~ In (EvExit code) (notAuthorized req cause)).
Proof.
  intros Henv Hbad. pose proof (init_requireBasicAuth M Henv) as Hreq.
  split.
  { intros user password Huser Hpair. rewrite (init_pair M user password Huser Hpair).
    split; reflexivity. }
  eexists. split; [| split; [| split; [| split; [| split]]]].
  - intros handler. exact (authorize_rejects (init M) handler res req Hreq Hbad).
  - intros pattern handler [[= <- <-] | [[= <- <-] | []]];
      exact (authorize_rejects (init M) _ res req Hreq Hbad).
  - cbn. tauto.
  - cbn. tauto.
  - reflexivity.
  - intros code Hin. cbn in Hin. repeat (destruct Hin as [Hin | Hin]; [discriminate Hin |]).
    exact Hin.
Qed.

Lemma unauthenticated_rejected_witness :
  authorize (init sampleMachine) handleExit flushing wrongPassword
  = notAuthorized wrongPassword "Not Authorized".
Proof.
  destruct (unauthenticated_rejected sampleMachine flushing wrongPassword)
    as (_ & cause & Hany & _).
  - vm_compute. discriminate.
  - vm_compute. discriminate.
  - rewrite (Hany handleExit). f_equal.
    pose proof (Hany handleExit) as Heq. vm_compute in Heq. congruence.
Defined.

(** * Further properties *)

(** ** Start-up: the credentials *)

Lemma strings_SplitN2_cases (s : string) :
  (occurs ":" s = false /\ strings_SplitN2 s ":" = [s])
  \/ (exists user password,
        occurs ":" s = true /\ occurs ":" user = false
        /\ s = user +:+ ":" +:+ password
        /\ strings_SplitN2 s ":" = [user; password]).
Proof.
  induction s as [| c s IH]; [left; split; reflexivity |].
  cbn [occurs strings_SplitN2]. destruct (Ascii.eqb_spec c ":") as [-> | Hc].
  - right. exists EmptyString, s. repeat split.
  - destruct IH as [[Hno ->] | (user & password & Hyes & Huser & -> & ->)].
    + left. split; [exact Hno | reflexivity].
    + right. exists (String c user), password. cbn [occurs].
      destruct (Ascii.eqb_spec c ":") as [-> | _]; [contradiction |].
      repeat split; assumption.
Qed.

(** X1.  [init] cuts [BASIC_AUTH] at its first colon: the user holds no
    colon, the password is all that follows (colons included), and
    without a colon the whole string is the user and the password is
    empty; either way basic auth is then required. *)
Theorem init_cuts_at_first_colon (M : Machine) :
  Getenv (Environ M) "BASIC_AUTH" <> "" ->
  requireBasicAuth (init M) = true
  /\ occurs ":" (authUser (init M)) = false
  /\ (occurs ":" (Getenv (Environ M) "BASIC_AUTH") = true ->
        Getenv (Environ M) "BASIC_AUTH"
        = authUser (init M) +:+ ":" +:+ authPassword (init M))
  /\ (occurs ":" (Getenv (Environ M) "BASIC_AUTH") = false ->
        authUser (init M) = Getenv (Environ M) "BASIC_AUTH"
        /\ authPassword (init M) = EmptyString).
Proof.
  intros Hne. unfold init.
  destruct (String.eqb_spec (Getenv (Environ M) "BASIC_AUTH") "") as [Heq | _];
    [contradiction |].
  cbn [negb requireBasicAuth authUser authPassword].
  destruct (strings_SplitN2_cases (Getenv (Environ M) "BASIC_AUTH"))
    as [[Hno ->] | (user & password & Hyes & Huser & Heq & ->)]; cbn.
  - rewrite Hno. repeat split; congruence.
  - rewrite Hyes. repeat split; congruence.
Qed.

Lemma init_cuts_at_first_colon_witness :
  occurs ":" (authUser (init sampleMachine)) = false
  /\ Getenv (Environ sampleMachine) "BASIC_AUTH"
     = authUser (init sampleMachine) +:+ ":" +:+ authPassword (init sampleMachine).
Proof.
  destruct (init_cuts_at_first_colon sampleMachine) as (_ & Huser & Hpair & _).
  - vm_compute. discriminate.
  - split; [exact Huser | apply Hpair; reflexivity].
Defined.

(** ** The gate lets the right requests through *)

(** X2.  [authorize] runs the handler, and does nothing else, when
    [BASIC_AUTH] is not set or empty, and when the request carries the
    configured user and password; with [BASIC_AUTH] holding a user only,
    the password to send is the empty one. *)
Theorem authorize_lets_through (M : Machine) (handler : Handler) (res : ResponseWriter)
    (req : Request) :
  Getenv (Environ M) "BASIC_AUTH" = ""
  \/ BasicAuth req = Some (authUser (init M), authPassword (init M)) ->
  authorize (init M) handler res req = handler res req.
Proof.
  intros [Hoff | Hok]; unfold authorize.
  - unfold init. rewrite Hoff. reflexivity.
  - destruct (requireBasicAuth (init M)); [| reflexivity].
    rewrite Hok, !String.eqb_refl. reflexivity.
Qed.

Lemma authorize_lets_through_witness :
  authorize (init sampleMachine) handleExit flushing uploadRequest
  = handleExit flushing uploadRequest.
Proof.
  apply (authorize_lets_through sampleMachine handleExit flushing uploadRequest).
  right. vm_compute. reflexivity.
Defined.

(** ** The exit endpoint *)

Lemma digits_of_uint_acc (d : Decimal.uint) (acc : positive) :
  digits (NilEmpty.string_of_uint d) (Z.pos acc) = Some (Z.pos (Pos.of_uint_acc d acc)).
Proof.
  revert acc. induction d as [| d IH | d IH | d IH | d IH | d IH | d IH | d IH | d IH | d IH | d IH];
    intros acc; [reflexivity | ..];
    cbn [NilEmpty.string_of_uint digits Pos.of_uint_acc];
    change (rune_of "0" - rune_of "0") with 0; change (rune_of "1" - rune_of "0") with 1;
    change (rune_of "2" - rune_of "0") with 2; change (rune_of "3" - rune_of "0") with 3;
    change (rune_of "4" - rune_of "0") with 4; change (rune_of "5" - rune_of "0") with 5;
    change (rune_of "6" - rune_of "0") with 6; change (rune_of "7" - rune_of "0") with 7;
    change (rune_of "8" - rune_of "0") with 8; change (rune_of "9" - rune_of "0") with 9;
    cbn [Z.leb Z.compare andb]; rewrite <- IH; f_equal; lia.
Qed.

Lemma digits_of_uint (d : Decimal.uint) :
  digits (NilEmpty.string_of_uint d) 0 = Some (Z.of_N (Pos.of_uint d)).
Proof.
  induction d as [| d IH | d IH | d IH | d IH | d IH | d IH | d IH | d IH | d IH | d IH];
    [reflexivity | exact IH | ..];
    cbn [NilEmpty.string_of_uint digits Pos.of_uint Z.of_N];
    rewrite <- digits_of_uint_acc; reflexivity.
Qed.

Lemma digits_to_uint (p : positive) :
  digits (NilEmpty.string_of_uint (Pos.to_uint p)) 0 = Some (Z.pos p).
Proof. rewrite digits_of_uint, DecimalPos.Unsigned.of_to. reflexivity. Qed.

(** The decimal digits of a positive number: not empty, no sign in
    front. *)
Lemma string_of_to_uint (p : positive) :
  exists c rest,
    NilZero.string_of_uint (Pos.to_uint p) = String c rest
    /\ NilEmpty.string_of_uint (Pos.to_uint p) = String c rest
    /\ c <> "-"%char /\ c <> "+"%char.
Proof.
  pose proof (DecimalPos.Unsigned.to_uint_nonnil p) as Hnil.
  destruct (Pos.to_uint p); [contradiction | ..];
    eexists; eexists; (split; [reflexivity | split; [reflexivity | split; discriminate]]).
Qed.

Lemma strconv_Atoi_unsigned (c : ascii) (rest : string) :
  c <> "-"%char -> c <> "+"%char ->
  strconv_Atoi (String c rest) =
  match digits (String c rest) 0 with
  | Some v => if (- 2 ^ 63 <=? v) && (v <? 2 ^ 63) then Some v else None
  | None => None
  end.
Proof.
  intros Hminus Hplus. unfold strconv_Atoi.
  destruct c as [[] [] [] [] [] [] [] []]; try reflexivity; congruence.
Qed.

(** [strconv.Atoi] reads back what [%d] prints, within 64 bits. *)
Lemma strconv_Atoi_format_d (n : Z) :
  strconv_Atoi (format_d n) = if (- 2 ^ 63 <=? n) && (n <? 2 ^ 63) then Some n else None.
Proof.
  destruct n as [| p | p]; [reflexivity | |]; unfold format_d; cbn [Z.to_int NilZero.string_of_int].
  - destruct (string_of_to_uint p) as (c & rest & -> & Hdigits & Hminus & Hplus).
    rewrite (strconv_Atoi_unsigned c rest Hminus Hplus), <- Hdigits, digits_to_uint.
    reflexivity.
  - destruct (string_of_to_uint p) as (c & rest & -> & Hdigits & _).
    unfold strconv_Atoi. rewrite <- Hdigits, digits_to_uint. reflexivity.
Qed.

(** X3.  The exit endpoint: with [code] the decimal writing of the integer
    [n], the server logs and exits with [n] when [n] fits in 64 bits and
    with 1 when it does not; it answers nothing and starts nothing. *)
Theorem handleExit_decimal_code (res : ResponseWriter) (req : Request) (n : Z) :
  Values_Get (URL_Query req) "code" = format_d n ->
  handleExit res req =
  (if (- 2 ^ 63 <=? n) && (n <? 2 ^ 63)
   then [ EvLog (LogExit n); EvExit n ]
   else [ EvLog (LogExit 1); EvExit 1 ]).
Proof.
  intros Hcode. unfold handleExit. rewrite Hcode, strconv_Atoi_format_d.
  assert (Hne : String.eqb (format_d n) "" = false).
  { destruct n as [| p | p]; [reflexivity | |]; unfold format_d;
      cbn [Z.to_int NilZero.string_of_int];
      [destruct (string_of_to_uint p) as (c & rest & -> & _); reflexivity | reflexivity]. }
  rewrite Hne. cbn [negb].
  destruct ((- 2 ^ 63 <=? n) && (n <? 2 ^ 63)); reflexivity.
Qed.

Lemma handleExit_decimal_code_witness :
  handleExit flushing wrongPassword = [ EvLog (LogExit 7); EvExit 7 ].
Proof.
  apply (handleExit_decimal_code flushing wrongPassword 7).
  vm_compute. reflexivity.
Defined.

(** ** The environment is well formed *)

Lemma occurs_separator (key value : string) : occurs "=" (key +:+ "=" +:+ value) = true.
Proof.
  induction key as [| c key IH]; [reflexivity |].
  change (String c key +:+ "=" +:+ value) with (String c (key +:+ "=" +:+ value)).
  cbn [occurs]. rewrite IH. apply orb_true_r.
Qed.

(** X4.  Every string [cgiEnv] builds is a [KEY=VALUE] pair: it holds an [=],
    its key is not empty, and it is its key, [=] and its value put
    together. *)
Theorem cgiEnv_entries_well_formed (M : Machine) (req : Request) (e : string) :
  In e (cgiEnv M req) ->
  occurs "=" e = true
  /\ envKey e <> EmptyString
  /\ e = envKey e +:+ "=" +:+ envValue e.
Proof.
  intros Hin. apply In_cgiEnv in Hin.
  destruct Hin as [Hbase | [[_ ->] | [(k & v & _ & ->) | [[_ ->] | [_ ->]]]]].
  - cbn [In] in Hbase.
    repeat (destruct Hbase as [<- | Hbase];
            [split; [reflexivity | split; [discriminate | reflexivity]] |]).
    destruct Hbase.
  - split; [reflexivity | split; [discriminate | reflexivity]].
  - assert (Hno : occurs "=" ("HTTP_" +:+ strings_Map upperCaseAndUnderscore k) = false)
      by exact (folded_name_no_equals k).
    assert (Hkey : envKey (headerEnv k v) = "HTTP_" +:+ strings_Map upperCaseAndUnderscore k)
      by exact (envKey_append ("HTTP_" +:+ strings_Map upperCaseAndUnderscore k) _ Hno).
    assert (Hvalue : envValue (headerEnv k v)
                     = strings_Join v (if String.eqb (strings_Map upperCaseAndUnderscore k)
                                                     "COOKIE" then "; " else ", "))
      by exact (envValue_append ("HTTP_" +:+ strings_Map upperCaseAndUnderscore k) _ Hno).
    rewrite Hkey, Hvalue. split; [| split; [discriminate | reflexivity]].
    exact (occurs_separator ("HTTP_" +:+ strings_Map upperCaseAndUnderscore k) _).
  - split; [reflexivity | split; [discriminate | reflexivity]].
  - split; [reflexivity | split; [discriminate | reflexivity]].
Qed.

Lemma cgiEnv_entries_well_formed_witness :
  envKey "HTTP_COOKIE=sid=abc; theme=dark" <> EmptyString.
Proof.
  refine (proj1 (proj2 (cgiEnv_entries_well_formed sampleMachine cookieRequest
                          "HTTP_COOKIE=sid=abc; theme=dark" _))).
  apply (header_in_cgiEnv sampleMachine cookieRequest "Cookie" ["sid=abc"; "theme=dark"]).
  vm_compute. reflexivity.
Defined.

(** ** Header names that fold alike *)

Lemma foldedByte_idempotent (c : ascii) : foldedByte (foldedByte c) = foldedByte c.
Proof.
  apply Ascii.eqb_eq. revert c.
  apply (for_all_bytes (fun c => Ascii.eqb (foldedByte (foldedByte c)) (foldedByte c))).
  vm_compute. reflexivity.
Qed.

Lemma foldedByte_toLower (c d : ascii) : toLower c = toLower d -> foldedByte c = foldedByte d.
Proof.
  intros Heq.
  pose proof (for_all_bytes
    (fun c => forallb (fun d => implb (Ascii.eqb (toLower c) (toLower d))
                                      (Ascii.eqb (foldedByte c) (foldedByte d))) bytes)) as Hall.
  specialize (Hall ltac:(vm_compute; reflexivity) c).
  pose proof (proj1 (forallb_forall _ bytes) Hall d (In_bytes d)) as H.
  cbv beta in H. rewrite Heq, Ascii.eqb_refl in H. apply Ascii.eqb_eq. exact H.
Qed.

(** X5.  Folding a header name is idempotent, and two names that differ only
    in the case of their ASCII letters get the same key. *)
Theorem folding_ignores_case (a b : string) :
  strings_Map upperCaseAndUnderscore (strings_Map upperCaseAndUnderscore a)
  = strings_Map upperCaseAndUnderscore a
  /\ (equalFold a b = true ->
      strings_Map upperCaseAndUnderscore a = strings_Map upperCaseAndUnderscore b).
Proof.
  rewrite !strings_Map_bytes. split.
  - induction a as [| c a IH]; [reflexivity |].
    cbn [mapBytes]. rewrite foldedByte_idempotent, IH. reflexivity.
  - unfold equalFold. revert b. induction a as [| c a IH]; intros [| d b] Heq;
      try reflexivity; try discriminate Heq.
    cbn [mapBytes String.eqb] in *.
    destruct (Ascii.eqb_spec (toLower c) (toLower d)) as [Hcd | _]; [| discriminate Heq].
    rewrite (foldedByte_toLower c d Hcd), (IH b Heq). reflexivity.
Qed.

Lemma folding_ignores_case_witness :
  strings_Map upperCaseAndUnderscore "content-type"
  = strings_Map upperCaseAndUnderscore "Content-Type".
Proof.
  apply (proj2 (folding_ignores_case "content-type" "Content-Type")). reflexivity.
Defined.

(** ** An executable is started in the directory that holds it *)

Lemma LastIndex_slash_cases (s : string) :
  (occurs "/" s = false /\ strings_LastIndex s "/" = -1)
  \/ (occurs "/" s = true
      /\ exists d base, s = d +:+ "/" +:+ base /\ occurs "/" base = false).
Proof.
  induction s as [| c s IH]; [left; split; reflexivity |].
  cbn [occurs]. destruct IH as [[Hno Hlast] | [Hyes (d & base & -> & Hbase)]].
  - destruct (Ascii.eqb_spec c "/") as [-> | Hc].
    + right. split; [reflexivity |]. exists EmptyString, s. split; [reflexivity | exact Hno].
    + left. rewrite Hno. split; [reflexivity |].
      cbn [strings_LastIndex]. rewrite Hlast. cbn [Z.leb Z.compare strings_HasPrefix].
      destruct (Ascii.eqb_spec "/" c) as [<- | _]; [contradiction | reflexivity].
  - right. rewrite Hyes, orb_true_r. split; [reflexivity |].
    exists (String c d), base. split; [reflexivity | exact Hbase].
Qed.

Lemma runCmd_no_panic M req path dir in_ out interactive :
  ~ In EvPanic (runCmd M req path dir in_ out interactive).
Proof.
  unfold runCmd. destruct (Run M _); cbn [In]; intros H;
    repeat (destruct H as [H | H]; [discriminate H |]); exact H.
Qed.

(** X6.  For an executable file [execCmd] panics exactly when the name holds
    no [/] (the slice bound is then -1).  Otherwise it starts one child,
    the file itself, whose [Dir] is the name up to its last [/]: the name
    is [Dir], a [/], and a last part without [/]. *)
Theorem executable_started_where_it_lies (M : Machine) (req : Request) (path : File)
    (pathInfo : FileInfo) (in_ : Reader) (out : Writer) (interactive : bool) :
  classify (Mode pathInfo) = ExecutableFile ->
  let trace := execCmd M req path pathInfo in_ out interactive in
  (occurs "/" (Name path) = false -> trace = [ EvPanic ])
  /\ (occurs "/" (Name path) = true ->
        ~ In EvPanic trace
        /\ exists c base,
             spawned trace = [c]
             /\ Path c = Name path
             /\ Name path = Dir c +:+ "/" +:+ base
             /\ occurs "/" base = false).
Proof.
  intros Hk. cbv zeta. rewrite execCmd_kind, Hk.
  destruct (LastIndex_slash_cases (Name path)) as [[Hno Hlast] | [Hyes (d & base & Hname & Hbase)]].
  - split; [| congruence]. intros _. rewrite Hlast. reflexivity.
  - split; [congruence |]. intros _. rewrite Hname, (slice_to_parent d base Hbase).
    split; [apply runCmd_no_panic |].
    destruct (spawned_runCmd M req (d +:+ "/" +:+ base) d in_ out interactive) as [env ->].
    eexists. exists base. repeat split. exact Hbase.
Qed.

Lemma executable_started_where_it_lies_witness :
  exists c base,
    spawned (execCmd sampleMachine (post "/srv/tool")
               {| Name := "/srv/tool"; Stat := Err "unused" |}
               {| Size := 2048; Mode := rwxr_xr_x |} RequestBody FlushWriterWrapper false) = [c]
    /\ Path c = "/srv/tool"
    /\ "/srv/tool" = Dir c +:+ "/" +:+ base
    /\ occurs "/" base = false.
Proof.
  refine (proj2 (proj2 (executable_started_where_it_lies sampleMachine (post "/srv/tool")
            {| Name := "/srv/tool"; Stat := Err "unused" |}
            {| Size := 2048; Mode := rwxr_xr_x |} RequestBody FlushWriterWrapper false _) _));
    reflexivity.
Defined.

(** ** One outcome per request *)

Lemma runCmd_quiet M req path dir in_ out interactive :
  quiet (runCmd M req path dir in_ out interactive)
  /\ (length (spawned (runCmd M req path dir in_ out interactive)) <= 1)%nat.
Proof.
  split.
  - intros status. unfold runCmd. destruct (Run M _); cbn [In]; intros H;
      repeat (destruct H as [H | H]; [discriminate H |]); exact H.
  - destruct (spawned_runCmd M req path dir in_ out interactive) as [env ->]. cbn. lia.
Qed.

Lemma quiet_log (l : LogLine) (trace : list Event) : quiet trace -> quiet (EvLog l :: trace).
Proof. intros Hq status [H | H]; [discriminate H | exact (Hq status H)]. Qed.

(** What [execCmd] does: one error answer, or no answer and at most one
    child. *)
Lemma execCmd_shape (M : Machine) (req : Request) (path : File) (pathInfo : FileInfo)
    (in_ : Reader) (out : Writer) (interactive : bool) :
  execCmd M req path pathInfo in_ out interactive
  = handleError req None StatusBadRequest invalidPost
  \/ (quiet (execCmd M req path pathInfo in_ out interactive)
      /\ (length (spawned (execCmd M req path pathInfo in_ out interactive)) <= 1)%nat).
Proof.
  rewrite execCmd_kind. destruct (classify (Mode pathInfo)).
  - right. destruct interactive; [| apply runCmd_quiet].
    destruct (Getwd M) as [dir | err].
    + destruct (runCmd_quiet M req (path_Join_bin dir) (Name path) in_ out true) as [Hq Hlen].
      split; [apply quiet_log, Hq | exact Hlen].
    + split; [| cbn; lia].
      intros status H. cbn [In] in H.
      repeat (destruct H as [H | H]; [discriminate H |]). exact H.
  - right. destruct (slice_to _ _); [apply runCmd_quiet |].
    split; [| cbn; lia]. intros status [H | []]. discriminate H.
  - left. reflexivity.
Qed.

Lemma handleGet_shape (M : Machine) (res : ResponseWriter) (req : Request) (path : File)
    (pathInfo : FileInfo) :
  (exists err status message,
      handleGet M res req path pathInfo = handleError req err status message
      /\ In status [StatusBadRequest; StatusInternalServerError])
  \/ (quiet (handleGet M res req path pathInfo)
      /\ spawned (handleGet M res req path pathInfo) = []).
Proof.
  unfold handleGet. destruct (IsDir (Mode pathInfo)).
  - destruct (ReadDir M (Name path)) as [fileInfos | err].
    + right. destruct (strings_Contains _ _); [| destruct (marshals M _ _)];
        (split; [| reflexivity]);
        intros status H; cbn [In] in H;
        repeat (destruct H as [H | H]; [discriminate H |]); exact H.
    + left. do 3 eexists. split; [reflexivity | cbn; tauto].
  - destruct (IsRegular (Mode pathInfo)).
    + destruct (Stat path) as [stat | err].
      * right. destruct (0 <? Size stat); (split; [| reflexivity]);
          intros status H; cbn [In app] in H;
          repeat (destruct H as [H | H]; [discriminate H |]); exact H.
      * left. do 3 eexists. split; [reflexivity | cbn; tauto].
    + left. do 3 eexists. split; [reflexivity | cbn; tauto].
Qed.

(** What [handleAny] does after its log line: an error answer through
    [handleError], the 405 answer, or no written status and at most one
    child. *)
Lemma handleAny_shape (M : Machine) (res : ResponseWriter) (req : Request) :
  exists rest,
    handleAny M res req = EvLog (LogRequest (Method req) (URL_Path req)) :: rest
    /\ ((exists err status message,
            rest = handleError req err status message
            /\ In status [StatusBadRequest; StatusNotFound; StatusInternalServerError])
        \/ rest = http_Error (Text "Only GET and POST supported") StatusMethodNotAllowed
        \/ (quiet rest /\ (length (spawned rest) <= 1)%nat)).
Proof.
  unfold handleAny. eexists. split; [reflexivity |].
  destruct (Open M (URL_Path req)) as [path | notExist err].
  - destruct (Stat path) as [pathInfo | err].
    + destruct (strings_HasPrefix _ _).
      * unfold handleWs. destruct (WsHandshake req).
        -- destruct (execCmd_shape M req path pathInfo WsIn WsOut true) as [-> | Hq].
           ++ left. do 3 eexists. split; [reflexivity | cbn; tauto].
           ++ right. right. exact Hq.
        -- right. right. split; [| cbn; lia]. intros status [H | []]. discriminate H.
      * destruct (String.eqb (Method req) "GET").
        -- destruct (handleGet_shape M res req path pathInfo)
             as [(err & status & message & -> & Hin) | [Hq Hnone]].
           ++ left. do 3 eexists. split; [reflexivity |]. cbn in *. tauto.
           ++ right. right. split; [exact Hq | rewrite Hnone; cbn; lia].
        -- destruct (String.eqb (Method req) "POST"); [| right; left; reflexivity].
           unfold handlePost. destruct (Flusher res).
           ++ destruct (execCmd_shape M req path pathInfo RequestBody FlushWriterWrapper false)
                as [-> | Hq].
              ** left. do 3 eexists. split; [reflexivity | cbn; tauto].
              ** right. right. exact Hq.
           ++ right. right. split; [| cbn; lia]. intros status [H | []]. discriminate H.
    + left. do 3 eexists. split; [reflexivity | cbn; tauto].
  - left. destruct notExist; do 3 eexists; (split; [reflexivity | cbn; tauto]).
Qed.

Lemma execCmd_not_refused (M : Machine) (req : Request) (path : File)
    (pathInfo : FileInfo) (in_ : Reader) (out : Writer) (interactive : bool) :
  ~ In EvWsRejected (execCmd M req path pathInfo in_ out interactive).
Proof.
  assert (Hrun : forall p d, ~ In EvWsRejected (runCmd M req p d in_ out interactive)).
  { intros p d. unfold runCmd. destruct (Run M _); cbn [In]; intros H;
      repeat (destruct H as [H | H]; [discriminate H |]); exact H. }
  rewrite execCmd_kind. destruct (classify (Mode pathInfo)).
  - destruct interactive; [| apply Hrun].
    destruct (Getwd M) as [dir | err].
    + intros [H | H]; [discriminate H | exact (Hrun _ _ H)].
    + cbn. intros H. repeat (destruct H as [H | H]; [discriminate H |]). exact H.
  - destruct (slice_to _ _); [apply Hrun | intros [H | []]; discriminate H].
  - cbn. intros H. repeat (destruct H as [H | H]; [discriminate H |]). exact H.
Qed.

(** X7.  Whatever the request, [handleAny] starts at most one child, and
    it never both answers through [http.Error] and starts a child: a
    status it hands to [http.Error] (by [handleError] or for the method)
    is 400, 404, 405 or 500, and then no process runs; nor does one run
    when the WebSocket handshake is refused.  (The statuses that
    [net/http] and [websocket.Handler] write on their own, 200 and 101
    among them, are not events of the trace.) *)
Theorem handleAny_answers_or_runs (M : Machine) (res : ResponseWriter) (req : Request) :
  (length (spawned (handleAny M res req)) <= 1)%nat
  /\ (forall status,
        In (EvWriteHeader status) (handleAny M res req) ->
        spawned (handleAny M res req) = []
        /\ In status [StatusBadRequest; StatusNotFound; StatusMethodNotAllowed;
                      StatusInternalServerError])
  /\ (In EvWsRejected (handleAny M res req) -> spawned (handleAny M res req) = []).
Proof.
  split; [| split].
  3: { unfold handleAny. rewrite spawned_log. intros [H | Hin]; [discriminate H |].
       destruct (Open M (URL_Path req)) as [path | notExist err];
         [| destruct notExist; reflexivity].
       destruct (Stat path) as [pathInfo | err]; [| reflexivity].
       destruct (strings_HasPrefix _ _).
       - unfold handleWs in *. destruct (WsHandshake req); [| reflexivity].
         destruct (execCmd_not_refused _ _ _ _ _ _ _ Hin).
       - destruct (String.eqb (Method req) "GET").
         + destruct (handleGet_shape M res req path pathInfo)
             as [(err & status & message & -> & _) | [_ ->]]; reflexivity.
         + destruct (String.eqb (Method req) "POST"); [| reflexivity].
           unfold handlePost in *. destruct (Flusher res); [| reflexivity].
           destruct (execCmd_not_refused _ _ _ _ _ _ _ Hin). }
  all: destruct (handleAny_shape M res req)
    as (rest & -> & [(err & st & message & -> & Hst) | [-> | [Hq Hlen]]]);
    rewrite spawned_log.
  - cbn; lia.
  - cbn; lia.
  - exact Hlen.
  - intros status [H | H]; [discriminate H |].
    split; [reflexivity |]. cbn in H, Hst |- *.
    repeat (destruct H as [H | H]; [try discriminate H |]); [| destruct H].
    injection H as <-. tauto.
  - intros status [H | H]; [discriminate H |].
    split; [reflexivity |]. cbn in H |- *.
    repeat (destruct H as [H | H]; [try discriminate H |]); [| destruct H].
    injection H as <-. tauto.
  - intros status [H | H]; [discriminate H |].
    destruct (Hq status H).
Qed.

(** X8.  Every status [handleAny] writes goes out as [text/plain]: the
    [application/json] set by [handleError] is replaced by [http.Error]
    before the header is written. *)
Theorem error_answers_are_text_plain (M : Machine) (res : ResponseWriter) (req : Request)
    (status : Z) :
  In (EvWriteHeader status) (handleAny M res req) ->
  sentContentType EmptyString (handleAny M res req) = Some "text/plain; charset=utf-8".
Proof.
  destruct (handleAny_shape M res req)
    as (rest & -> & [(err & st & message & -> & _) | [-> | [Hq _]]]).
  - intros _. reflexivity.
  - intros _. reflexivity.
  - intros [H | H]; [discriminate H | destruct (Hq status H)].
Qed.

Lemma error_answers_are_text_plain_witness :
  sentContentType EmptyString (handleAny sampleMachine flushing (post "/srv/notes.txt"))
  = Some "text/plain; charset=utf-8".
Proof.
  apply (error_answers_are_text_plain sampleMachine flushing (post "/srv/notes.txt")
           StatusBadRequest).
  vm_compute. tauto.
Defined.

(** ** What a child is given *)

(** X9.  Every child [handleAny] starts has one writer for both its standard
    output and its standard error, and the server's environment followed
    by the CGI variables.  When [Origin] begins with [ws://], whatever
    the method, it reads and writes the WebSocket and gets the prompt
    [PS1] as last variable; otherwise the request is a POST, the child
    reads the request body, writes to the flushing writer and gets no
    [PS1]. *)
Theorem child_streams_and_environment (M : Machine) (res : ResponseWriter) (req : Request)
    (c : Cmd) :
  In c (spawned (handleAny M res req)) ->
  Stdout c = Stderr c
  /\ if strings_HasPrefix (Header_Get (Header req) "Origin") "ws://"
     then Stdin c = WsIn /\ Stdout c = WsOut
          /\ Env c = os_Environ (Environ M) ++ cgiEnv M req ++ [PS1]
     else Method req = "POST"
          /\ Stdin c = RequestBody /\ Stdout c = FlushWriterWrapper
          /\ Env c = os_Environ (Environ M) ++ cgiEnv M req.
Proof.
  unfold handleAny. rewrite spawned_log.
  destruct (Open M (URL_Path req)) as [path | notExist err];
    [| destruct notExist; intros []].
  destruct (Stat path) as [pathInfo | err]; [| intros []].
  destruct (strings_HasPrefix _ _).
  - unfold handleWs. destruct (WsHandshake req); [| intros []].
    intros Hin.
    pose proof (spawned_execCmd_Env M req path pathInfo WsIn WsOut true c Hin) as Henv.
    apply spawned_execCmd_streams in Hin as (Hin_ & Hout & Herr).
    repeat split; congruence.
  - destruct (String.eqb (Method req) "GET").
    + destruct (handleGet_shape M res req path pathInfo)
        as [(err & status & message & -> & _) | [_ ->]]; intros [].
    + destruct (String.eqb_spec (Method req) "POST") as [Hpost | _]; [| intros []].
      unfold handlePost. destruct (Flusher res); [| intros []].
      intros Hin.
      pose proof (spawned_execCmd_Env M req path pathInfo RequestBody FlushWriterWrapper
                    false c Hin) as Henv.
      rewrite app_nil_r in Henv.
      apply spawned_execCmd_streams in Hin as (Hin_ & Hout & Herr).
      repeat split; congruence.
Qed.

Lemma child_streams_and_environment_witness :
  exists c,
    spawned (handleAny sampleMachine flushing (post "/srv")) = [c]
    /\ Stdin c = RequestBody
    /\ Env c = os_Environ (Environ sampleMachine) ++ cgiEnv sampleMachine (post "/srv").
Proof.
  assert (Hrun : exists c, spawned (handleAny sampleMachine flushing (post "/srv")) = [c])
    by (eexists; vm_compute; reflexivity).
  destruct Hrun as [c Hc]. exists c. split; [exact Hc |].
  destruct (child_streams_and_environment sampleMachine flushing (post "/srv") c)
    as (_ & Hrest).
  - rewrite Hc. left. reflexivity.
  - change (strings_HasPrefix (Header_Get (Header (post "/srv")) "Origin") "ws://")
      with false in Hrest.
    destruct Hrest as (_ & Hin & _ & Henv). split; assumption.
Defined.

(** ** Listing a directory *)

Lemma HasSuffix_slash (s : string) : strings_HasSuffix (s +:+ "/") "/" = true.
Proof.
  induction s as [| c s IH]; [reflexivity |].
  change (String c s +:+ "/") with (String c (s +:+ "/")).
  cbn [strings_HasSuffix]. rewrite IH. apply orb_true_r.
Qed.

(** X10.  The page listing a directory is the same whether or not the path it
    was asked under ends with [/]: the loop adds the missing [/] before
    the first link and every link then starts with it. *)
Theorem renderDirHTML_trailing_slash (pathName : string)
    (fileInfos : list (string * FileInfo)) :
  strings_HasSuffix pathName "/" = false ->
  renderDirHTML pathName fileInfos = renderDirHTML (pathName +:+ "/") fileInfos.
Proof.
  intros Hno. unfold renderDirHTML. f_equal. f_equal.
  destruct fileInfos as [| fi rest]; [reflexivity |].
  cbn [renderItems]. rewrite Hno, HasSuffix_slash. reflexivity.
Qed.

Example renderDirHTML_example :
  renderDirHTML "/srv" [ ("a<b", {| Size := 1; Mode := rw_r__r__ |});
                         ("bin", {| Size := 0; Mode := Z.lor ModeDir rwxr_xr_x |}) ]
  = "<pre><ul><li><a href='/srv/a<b'>a&lt;b</a></li><li><a href='/srv/bin'>bin/</a></li></ul></pre>".
Proof. reflexivity. Qed.

Lemma renderDirHTML_trailing_slash_witness :
  renderDirHTML "/srv" [ ("tool", {| Size := 2048; Mode := rwxr_xr_x |}) ]
  = renderDirHTML ("/srv" +:+ "/") [ ("tool", {| Size := 2048; Mode := rwxr_xr_x |}) ].
Proof. apply renderDirHTML_trailing_slash. reflexivity. Defined.

Lemma setLetters_first (m : FileMode) (letters : list (Z * ascii)) (avoid : ascii) :
  Forall (fun l => snd l <> avoid) letters ->
  String.get 0 (setLetters m letters) <> Some avoid.
Proof.
  induction 1 as [| [bit c] rest Hc _ IH]; [discriminate |].
  cbn [setLetters]. destruct (negb (Z.land m (Z.shiftl 1 bit) =? 0)); [| exact IH].
  cbn in *. congruence.
Qed.

Lemma FileMode_String_first (m : FileMode) :
  exists c, String.get 0 (FileMode_String m) = Some c
            /\ (c = "d"%char <-> IsDir m = true).
Proof.
  unfold FileMode_String, IsDir. cbv zeta.
  change ModeDir with (Z.shiftl 1 31).
  change (setLetters m modeLetters)
    with (if negb (Z.land m (Z.shiftl 1 31) =? 0)
          then String "d" (setLetters m (tl modeLetters))
          else setLetters m (tl modeLetters)).
  destruct (negb (Z.land m (Z.shiftl 1 31) =? 0)).
  - exists "d"%char. split; [reflexivity | tauto].
  - pose proof (setLetters_first m (tl modeLetters) "d"%char) as Hfirst.
    destruct (setLetters m (tl modeLetters)) as [| c rest] eqn:Hset.
    + exists "-"%char. split; [reflexivity |]. split; discriminate.
    + exists c. split; [reflexivity |]. split; [| discriminate].
      intros ->. exfalso. apply Hfirst; [| reflexivity].
      repeat constructor; discriminate.
Qed.

(** X11.  [toFileInfoDetails] never panics; the type it reports is one
    character, which is [d] exactly for a directory, and the permission
    is the low nine bits of the mode, a number from 0 to 0777. *)
Theorem toFileInfoDetails_type_and_permission (fi : FileInfo) :
  exists details,
    toFileInfoDetails fi = Some details
    /\ details_Size details = Size fi
    /\ String.length (details_Type details) = 1%nat
    /\ (details_Type details = "d" <-> IsDir (Mode fi) = true)
    /\ details_Perm details = Mode fi mod 512
    /\ 0 <= details_Perm details <= octal 7 7 7.
Proof.
  unfold toFileInfoDetails.
  destruct (FileMode_String_first (Mode fi)) as (c & -> & Hdir).
  eexists. split; [reflexivity |]. cbn [details_Size details_Type details_Perm].
  assert (Hperm : Z.land (Mode fi) ModePerm = Mode fi mod 512)
    by (change ModePerm with (Z.ones 9); rewrite Z.land_ones by lia; reflexivity).
  rewrite Hperm. repeat split.
  - intros [= ->]. apply Hdir. reflexivity.
  - intros Hd. f_equal. apply Hdir. exact Hd.
  - apply Z.mod_pos_bound. lia.
  - pose proof (Z.mod_pos_bound (Mode fi) 512 ltac:(lia)). unfold octal. lia.
Qed.

(** ** Variables a client cannot set *)

(** X12.  Each of the variables taken from the request line and the connection
    is in the environment, and no other entry has its key: what a header
    contributes has a key that starts with [HTTP_], so no header can
    stand for [REMOTE_ADDR], [REQUEST_METHOD] or [SERVER_PORT]. *)
Theorem fixed_variables_cannot_be_forged (M : Machine) (req : Request) (key value : string) :
  In (key, value) (fixedVariables M req) ->
  In (key +:+ "=" +:+ value) (cgiEnv M req)
  /\ (forall e, In e (cgiEnv M req) -> envKey e = key -> e = key +:+ "=" +:+ value).
Proof.
  intros Hfixed. unfold fixedVariables in Hfixed. cbn [In] in Hfixed. split.
  - apply In_cgiEnv. left. cbn [In].
    repeat (destruct Hfixed as [[= <- <-] | Hfixed]; [tauto |]). destruct Hfixed.
  - intros e Hin Hkey. apply In_cgiEnv in Hin.
    destruct Hin as [Hbase | [[_ ->] | [(k & v & _ & ->) | [[_ ->] | [_ ->]]]]].
    + cbn [In] in Hbase.
      repeat (destruct Hfixed as [[= <- <-] | Hfixed];
              [repeat (destruct Hbase as [<- | Hbase];
                       [first [reflexivity | key_clash Hkey] |]);
               destruct Hbase |]).
      destruct Hfixed.
    + repeat (destruct Hfixed as [[= <- <-] | Hfixed]; [key_clash Hkey |]). destruct Hfixed.
    + destruct (envKey_headerEnv k v) as [rest Hk]. rewrite Hk in Hkey.
      repeat (destruct Hfixed as [[= <- <-] | Hfixed]; [discriminate Hkey |]). destruct Hfixed.
    + repeat (destruct Hfixed as [[= <- <-] | Hfixed]; [key_clash Hkey |]). destruct Hfixed.
    + repeat (destruct Hfixed as [[= <- <-] | Hfixed]; [key_clash Hkey |]). destruct Hfixed.
Qed.

Lemma fixed_variables_cannot_be_forged_witness :
  In "REMOTE_ADDR=10.0.0.7:51234" (cgiEnv sampleMachine cookieRequest).
Proof.
  refine (proj1 (fixed_variables_cannot_be_forged sampleMachine cookieRequest
                   "REMOTE_ADDR" "10.0.0.7:51234" _)).
  cbn. tauto.
Defined.

(** X13.  [CONTENT_TYPE] is in the environment exactly when
    [Header.Get("Content-Type")] is not empty, and is then that value: a
    [Content-Type] header whose first value is empty yields no
    [CONTENT_TYPE]. *)
Theorem cgiEnv_CONTENT_TYPE (M : Machine) (req : Request) :
  (hasKey "CONTENT_TYPE" (cgiEnv M req) <-> Header_Get (Header req) "Content-Type" <> "")
  /\ (forall e, In e (cgiEnv M req) -> envKey e = "CONTENT_TYPE" ->
        e = "CONTENT_TYPE=" +:+ Header_Get (Header req) "Content-Type").
Proof.
  assert (Horigin : forall e, In e (cgiEnv M req) -> envKey e = "CONTENT_TYPE" ->
            Header_Get (Header req) "Content-Type" <> ""
            /\ e = "CONTENT_TYPE=" +:+ Header_Get (Header req) "Content-Type").
  { intros e Hin Hkey. apply In_cgiEnv in Hin.
    destruct Hin as [Hbase | [[_ ->] | [(k & v & _ & ->) | [[_ ->] | [Hct ->]]]]].
    - cbn [In] in Hbase.
      repeat (destruct Hbase as [<- | Hbase]; [key_clash Hkey |]). destruct Hbase.
    - key_clash Hkey.
    - destruct (envKey_headerEnv k v) as [rest Hk]. rewrite Hk in Hkey. discriminate Hkey.
    - key_clash Hkey.
    - split; [exact Hct | reflexivity]. }
  split; [split |].
  - intros (e & Hin & Hkey). exact (proj1 (Horigin e Hin Hkey)).
  - intros Hct. exists ("CONTENT_TYPE=" +:+ Header_Get (Header req) "Content-Type").
    split; [| reflexivity]. apply In_cgiEnv. do 4 right. split; [exact Hct | reflexivity].
  - intros e Hin Hkey. exact (proj2 (Horigin e Hin Hkey)).
Qed.

(** ** What a request cannot do *)

Lemma runCmd_no_exit M req path dir in_ out interactive code :
  ~ In (EvExit code) (runCmd M req path dir in_ out interactive).
Proof.
  unfold runCmd. destruct (Run M _); cbn [In]; intros H;
    repeat (destruct H as [H | H]; [discriminate H |]); exact H.
Qed.

Lemma handleError_no_exit req err status message code :
  ~ In (EvExit code) (handleError req err status message).
Proof.
  cbn. intros H. repeat (destruct H as [H | H]; [discriminate H |]). exact H.
Qed.

Lemma execCmd_exit (M : Machine) (req : Request) (path : File) (pathInfo : FileInfo)
    (in_ : Reader) (out : Writer) (interactive : bool) (code : Z) :
  In (EvExit code) (execCmd M req path pathInfo in_ out interactive) ->
  code = 1 /\ interactive = true /\ IsDir (Mode pathInfo) = true
  /\ exists err, Getwd M = Err err.
Proof.
  unfold execCmd. destruct (IsDir (Mode pathInfo)).
  - destruct interactive; [| intros H; destruct (runCmd_no_exit _ _ _ _ _ _ _ _ H)].
    destruct (Getwd M) as [dir | err].
    + intros [H | H]; [discriminate H | destruct (runCmd_no_exit _ _ _ _ _ _ _ _ H)].
    + intros [H | [H | []]]; [discriminate H |]. injection H as <-.
      repeat split. exists err. reflexivity.
  - destruct (IsRegular (Mode pathInfo) && _).
    + destruct (slice_to _ _);
        [intros H; destruct (runCmd_no_exit _ _ _ _ _ _ _ _ H) | intros [H | []]; discriminate H].
    + intros H. destruct (handleError_no_exit _ _ _ _ _ H).
Qed.

Lemma handleGet_reads_only (M : Machine) (res : ResponseWriter) (req : Request)
    (path : File) (pathInfo : FileInfo) (e : Event) :
  In e (handleGet M res req path pathInfo) ->
  match e with
  | EvRun _ | EvExit _ => False
  | EvPanic =>
      exists fileInfos,
        ReadDir M (Name path) = Ok fileInfos
        /\ strings_Contains (Header_Get (Header req) "Accept") "html" = false
        /\ marshals M (Name path) fileInfos = false
  | _ => True
  end.
Proof.
  unfold handleGet. destruct (IsDir (Mode pathInfo)).
  - destruct (ReadDir M (Name path)) as [fileInfos | err].
    + destruct (strings_Contains _ _) eqn:Hhtml; [| destruct (marshals M _ _) eqn:Hjson];
        cbn [In]; intros H;
        repeat (destruct H as [<- | H];
                [first [exact I | exists fileInfos; repeat split; assumption] |]);
        destruct H.
    + cbn. intros H. repeat (destruct H as [<- | H]; [exact I |]). destruct H.
  - destruct (IsRegular (Mode pathInfo)).
    + destruct (Stat path) as [stat | err].
      * destruct (0 <? Size stat); cbn [In app]; intros H;
          repeat (destruct H as [<- | H]; [exact I |]); destruct H.
      * cbn. intros H. repeat (destruct H as [<- | H]; [exact I |]). destruct H.
    + cbn. intros H. repeat (destruct H as [<- | H]; [exact I |]). destruct H.
Qed.



(** X15.  A path request makes the server exit in one case only: a WebSocket
    request ([Origin] beginning with [ws://]) for a directory when
    [os.Getwd] fails; the exit code is then 1 ([log.Fatal]). *)
Theorem path_request_exit (M : Machine) (res : ResponseWriter) (req : Request) (code : Z) :
  In (EvExit code) (handleAny M res req) ->
  code = 1
  /\ strings_HasPrefix (Header_Get (Header req) "Origin") "ws://" = true
  /\ exists err, Getwd M = Err err.
Proof.
  unfold handleAny. intros [H | Hin]; [discriminate H |].
  destruct (Open M (URL_Path req)) as [path | notExist err];
    [| destruct notExist; destruct (handleError_no_exit _ _ _ _ _ Hin)].
  destruct (Stat path) as [pathInfo | err]; [| destruct (handleError_no_exit _ _ _ _ _ Hin)].
  destruct (strings_HasPrefix _ _).
  - unfold handleWs in Hin. destruct (WsHandshake req); [| destruct Hin as [H | []]; discriminate H].
    apply execCmd_exit in Hin as (Hcode & _ & _ & Hwd). repeat split; assumption.
  - destruct (String.eqb (Method req) "GET").
    + pose proof (handleGet_reads_only M res req path pathInfo _ Hin) as [].
    + destruct (String.eqb (Method req) "POST").
      * unfold handlePost in Hin. destruct (Flusher res); [| destruct Hin as [H | []]; discriminate H].
        apply execCmd_exit in Hin as (_ & Hinter & _). discriminate Hinter.
      * cbn in Hin. repeat (destruct Hin as [H | Hin]; [discriminate H |]). destruct Hin.
Qed.

Lemma path_request_exit_witness :
  strings_HasPrefix (Header_Get (Header wsRequest) "Origin") "ws://" = true
  /\ exists err, Getwd lostMachine = Err err.
Proof.
  refine (proj2 (path_request_exit lostMachine flushing wsRequest 1 _)).
  vm_compute. tauto.
Defined.
